(** * Flux model loaders of InvokeAI: a shallow embedding and its properties

    Source: [invokeai/backend/model_manager/load/model_loaders/flux.py].

    The six loader classes of that file are embedded as functions in a small
    state-and-exception monad.  The state carries what the loaders change
    around their work (the verbosity of library warnings, the "empty weights"
    allocation mode) and a log of the calls made to the outside world, each
    stamped with the state it was made in.  The outside world (files, the
    YAML parser, the network constructors, the quantization routine, the
    generic super-class loader) is a record of functions, [Externals]. *)

From stdpp Require Import base option list strings gmap sets.
From Stdlib Require Import ZArith.

Set Warnings "-register-all,-clear-no-such-hyp".

Open Scope Z_scope.
Open Scope string_scope.

(** ** Paths ([pathlib.Path], POSIX flavour) *)

Record Path := mkPath { anchored : bool; parts : list string }.

(** [p / q]: an absolute right operand replaces the left one. *)
Definition pdiv (p q : Path) : Path :=
  if anchored q then q else mkPath (anchored p) (parts p ++ parts q).

(** [p / "name"] for a single relative component. *)
Definition pchild (p : Path) (name : string) : Path := pdiv p (mkPath false [name]).

Fixpoint join_posix (l : list string) : string :=
  match l with
  | [] => ""
  | [x] => x
  | x :: r => x ++ "/" ++ join_posix r
  end.

Definition as_posix (p : Path) : string :=
  match anchored p, parts p with
  | false, [] => "."
  | false, l => join_posix l
  | true, l => "/" ++ join_posix l
  end.

(** ** Configuration records *)

(** Modelled from the spec: the configuration classes of
    [invokeai.backend.model_manager.config] are imported by the loaders but
    declared elsewhere.  The spec describes them as a "tagged union over
    checkpoint/diffusers/quantized/t5-variant configs"; the three checkpoint
    variants derive from [CheckpointConfigBase] (the loaders read
    [config.config_path] from them), the others do not. *)
Inductive ConfigClass :=
| CheckpointConfigBase
| VAECheckpointConfig
| MainCheckpointConfig
| MainBnbQuantized4bCheckpointConfig
| CLIPEmbedDiffusersConfig
| T5EncoderConfig
| T5Encoder8bConfig.

Global Instance ConfigClass_eq_dec : EqDecision ConfigClass.
Proof. solve_decision. Defined.

Definition subclass (c d : ConfigClass) : bool :=
  match d, c with
  | CheckpointConfigBase,
    (CheckpointConfigBase | VAECheckpointConfig | MainCheckpointConfig
     | MainBnbQuantized4bCheckpointConfig) => true
  | _, _ => bool_decide (c = d)
  end.

Record AnyModelConfig := mkConfig {
  config_class : ConfigClass;
  path : Path;          (* [Path(config.path)] *)
  config_path : Path    (* relative to the legacy configuration root *)
}.

Definition isinstance (config : AnyModelConfig) (cls : ConfigClass) : bool :=
  subclass (config_class config) cls.

(** Modelled from the spec: the enumeration [SubModelType] of
    [invokeai.backend.model_manager] is declared elsewhere; the spec speaks
    of "an optional sub-part identifier drawn from a closed enumeration".
    The loaders name five of its members in their [case] arms. *)
Inductive SubModelType :=
| UNet | Transformer | TextEncoder | TextEncoder2 | Tokenizer | Tokenizer2
| VAE | VAEDecoder | VAEEncoder | Scheduler | SafetyChecker.

Global Instance SubModelType_eq_dec : EqDecision SubModelType.
Proof. solve_decision. Defined.

(** ** YAML documents and parameter dataclasses *)

(** What [yaml.safe_load] returns.  A mapping is a Python [dict]: its items
    in insertion order, keys pairwise distinct. *)
Inductive YamlValue :=
| YNull
| YBool (b : bool)
| YInt (z : Z)
| YFloat (bits : Z)
| YStr (s : string)
| YSeq (l : list YamlValue)
| YMap (items : list (string * YamlValue)).

Abbreviation Items := (list (string * YamlValue)).

(** [d[k]] on a dict given by its items. *)
Fixpoint dict_get (k : string) (items : Items) : option YamlValue :=
  match items with
  | [] => None
  | (k', v) :: r => if bool_decide (k' = k) then Some v else dict_get k r
  end.

(** One field of a dataclass: its name and, when it has one, its default. *)
Record Field := mkField { field_name : string; field_default : option YamlValue }.

(** [{f.name for f in fields(cls)}] *)
Definition field_names (fs : list Field) : gset string :=
  list_to_set (field_name <$> fs).

(** [{k: v for k, v in items if k in dataclass_fields}] *)
Definition filter_params (dataclass_fields : gset string) (items : Items) : Items :=
  filter (λ kv, kv.1 ∈ dataclass_fields) items.

(** ** Tensors, networks and model objects *)

(** A tensor has a shape, and either has backing storage or lives on the
    "meta" device (shape and dtype only, no memory committed). *)
Inductive Tensor :=
| MetaTensor (shape : list nat)
| Data (shape : list nat) (blob : Z).

Definition tensor_shape (t : Tensor) : list nat :=
  match t with
  | MetaTensor shape | Data shape _ => shape
  end.

Inductive NetClass := AutoEncoder | Flux.

Inductive HFClass := CLIPTokenizer | CLIPTextModel | T5Tokenizer | T5EncoderModel
                   | FastQuantizedTransformersModel.

Inductive Dtype := float32 | float16 | bfloat16.

Record Network := mkNetwork {
  net_class : NetClass;
  hparams : Items;                       (* the dataclass instance *)
  state_dict : gmap string Tensor;       (* parameter name -> tensor *)
  quantized : bool
}.

Inductive AnyModel :=
| Net (n : Network)
| Pretrained (cls : HFClass) (src : Path) (max_length : option Z).

(** ** Errors *)

Inductive PyError :=
| Exception (msg : string)
| AssertionError
| FileNotFoundError (file : string)
| IsADirectoryError (file : string)
| PermissionError (file : string)
| YAMLError
| KeyError (key : string)
| TypeError (msg : string)
| AttributeError (msg : string)
| RuntimeError (msg : string)
| OSError (msg : string).

(** ** The monad: state, exceptions, and a log of outside calls *)

Inductive Event :=
| EvOpen (file : string)                         (* open(config_path, "r") *)
| EvYamlLoad                                     (* yaml.safe_load(stream) *)
| EvConstruct (cls : NetClass)                   (* load_class(params) *)
| EvQuantize (model : Network)                   (* quantize_model_nf4(model, ...) *)
| EvLoadFile (file : Path)                       (* load_file(model_path) *)
| EvLoadStateDict (strict assign : bool)         (* model.load_state_dict(sd, ...) *)
| EvFromPretrained (cls : HFClass) (src : Path)  (* cls.from_pretrained(...) *)
| EvSuper.                                       (* super()._load_model(...) *)

Record Stamp := mkStamp {
  event : Event;
  at_verbosity : Z;     (* library verbosity when the call was made *)
  at_meta : bool        (* was the "empty weights" mode on *)
}.

Record State := mkState {
  verbosity : Z;
  meta_mode : bool;
  trace : list Stamp
}.

Inductive Result (A : Type) :=
| Ok (a : A)
| Raise (e : PyError).
Arguments Ok {A} a.
Arguments Raise {A} e.

Definition M (A : Type) : Type := State → Result A * State.

Definition ret {A} (a : A) : M A := λ s, (Ok a, s).
Definition raise {A} (e : PyError) : M A := λ s, (Raise e, s).
Definition bind {A B} (m : M A) (k : A → M B) : M B :=
  λ s, match m s with
       | (Ok a, s') => k a s'
       | (Raise e, s') => (Raise e, s')
       end.

Notation "'do' x <- m ; k" := (bind m (λ x, k))
  (at level 10, x name, m at level 100, k at level 200, only parsing).
Notation "'run' m ; k" := (bind m (λ _, k))
  (at level 10, m at level 100, k at level 200, only parsing).

Definition lift {A} (r : Result A) : M A := λ s, (r, s).

Definition emit (ev : Event) : M unit :=
  λ s, (Ok tt, mkState (verbosity s) (meta_mode s)
                       (trace s ++ [mkStamp ev (verbosity s) (meta_mode s)])).

(** A context manager: what [__enter__] and [__exit__] do to the state. *)
Record ContextManager := mkCM { cm_enter : State → State; cm_exit : State → State }.

(** [with ctor(): body].  [__exit__] runs on every way out of the body and
    does not swallow the exception. *)
Definition with_ {A} (ctor : State → ContextManager) (body : M A) : M A :=
  λ s, let cm := ctor s in
       let '(r, s') := body (cm_enter cm s) in
       (r, cm_exit cm s').

Definition ERROR : Z := 40.

(** Modelled from the spec: [SilenceWarnings] of
    [invokeai.backend.util.silence_warnings] is declared elsewhere.  The spec
    asks for "an explicit scoped-resource guard (acquire suppression, run
    load, release on all exit paths including failure)": the guard remembers
    the verbosity it finds, lowers it to errors only, and puts it back. *)
Definition SilenceWarnings (s0 : State) : ContextManager :=
  mkCM (λ s, mkState ERROR (meta_mode s) (trace s))
       (λ s, mkState (verbosity s0) (meta_mode s) (trace s)).

(** [accelerate.init_empty_weights()]: while active, parameters of newly
    built modules are placed on the meta device. *)
Definition init_empty_weights (s0 : State) : ContextManager :=
  mkCM (λ s, mkState (verbosity s) true (trace s))
       (λ s, mkState (verbosity s) (meta_mode s0) (trace s)).

(** ** The outside world *)

Record Externals := mkExternals {
  legacy_conf_path : Path;                          (* app_config.legacy_conf_path *)
  file_text : string → option string;               (* contents of a readable file *)
  open_error : string → PyError;                    (* what [open] raises otherwise *)
  yaml_safe_load : string → option YamlValue;       (* [None]: the parser raises *)
  AutoEncoderParams : list Field;                   (* fields(AutoEncoderParams) *)
  FluxParams : list Field;                          (* fields(FluxParams) *)
  fresh_parameters : NetClass → Items → option (gmap string Tensor);
                                                    (* parameters a constructor creates *)
  safetensors : Path → option (gmap string Tensor); (* what load_file reads *)
  state_dict_hook_error : Network → gmap string Tensor → option PyError;
                                                    (* what a layer's own loading code
                                                       raises on this file, if anything *)
  quantize_nf4 : Network → gset string → Dtype → option Network;
  pretrained_available : HFClass → Path → bool;
  generic_load_model : AnyModelConfig → option SubModelType → M AnyModel
}.

(** ** Calls shared by the loaders *)

(** The three checkpoint loaders open and parse the architecture document
    with the same lines:
<<
    with open(config_path, "r") as stream:
        try:
            flux_conf = yaml.safe_load(stream)
        except:
            raise
>> *)
Definition read_flux_conf (E : Externals) (config_path : string) : M YamlValue :=
  run emit (EvOpen config_path);
  match file_text E config_path with
  | None => raise (open_error E config_path)
  | Some stream =>
      run emit EvYamlLoad;
      match yaml_safe_load E stream with
      | None => raise YAMLError
      | Some flux_conf => ret flux_conf
      end
  end.

(** [flux_conf["params"].items()] *)
Definition params_items (flux_conf : YamlValue) : Result Items :=
  match flux_conf with
  | YMap d =>
      match dict_get "params" d with
      | None => Raise (KeyError "params")
      | Some (YMap items) => Ok items
      | Some _ => Raise (AttributeError "items")
      end
  | _ => Raise (TypeError "not subscriptable")
  end.

(** The generated [__init__] of a dataclass, called with keyword arguments:
    an unknown keyword is refused, a field without argument takes its
    default, a field without argument and without default is refused. *)
Fixpoint init_fields (fs : list Field) (kwargs : Items) : option Items :=
  match fs with
  | [] => Some []
  | f :: r =>
      match dict_get (field_name f) kwargs with
      | Some v => ((field_name f, v) ::.) <$> init_fields r kwargs
      | None =>
          match field_default f with
          | Some v => ((field_name f, v) ::.) <$> init_fields r kwargs
          | None => None
          end
      end
  end.

Definition dataclass_init (fs : list Field) (kwargs : Items) : Result Items :=
  if bool_decide (Forall (λ kv, kv.1 ∈ field_names fs) kwargs) then
    match init_fields fs kwargs with
    | Some inst => Ok inst
    | None => Raise (TypeError "missing required argument")
    end
  else Raise (TypeError "unexpected keyword argument").

(** Where freshly created parameters are put: on the meta device under
    [init_empty_weights], in memory otherwise. *)
Definition materialize (meta : bool) (ps : gmap string Tensor) : gmap string Tensor :=
  if meta then (λ t, MetaTensor (tensor_shape t)) <$> ps else ps.

(** [load_class(params)] *)
Definition construct (E : Externals) (load_class : NetClass) (params : Items) : M Network :=
  run emit (EvConstruct load_class);
  λ s, match fresh_parameters E load_class params with
       | None => (Raise (RuntimeError "constructor"), s)
       | Some ps =>
           (Ok (mkNetwork load_class params (materialize (meta_mode s) ps) false), s)
       end.

(** [load_file(model_path)] of [safetensors.torch] *)
Definition load_file (E : Externals) (model_path : Path) : M (gmap string Tensor) :=
  run emit (EvLoadFile model_path);
  match safetensors E model_path with
  | None => raise (OSError "safetensors")
  | Some sd => ret sd
  end.

(** What a parameter holds after the overlay of [sd]: with [assign] the
    loaded tensor takes the place of the old one, without it the loaded
    values are copied into the old storage (a meta tensor has none). *)
Definition overlay_tensor (assign : bool) (sd : gmap string Tensor)
    (name : string) (old : Tensor) : option Tensor :=
  Some match sd !! name with
       | None => old
       | Some new => if assign then new
                     else match old with
                          | MetaTensor shape => MetaTensor shape
                          | Data _ _ => new
                          end
       end.

(** Does the tensor the file holds under [name], if any, have the shape of
    the parameter [old]? *)
Definition shape_ok (sd : gmap string Tensor) (name : string) (old : Tensor) : bool :=
  match sd !! name with
  | None => true
  | Some new => bool_decide (tensor_shape new = tensor_shape old)
  end.

(** Some parameter of the module and the tensor of its name in the file
    differ in shape. *)
Definition size_mismatch (sd st : gmap string Tensor) : bool :=
  negb (forallb (λ kv, shape_ok sd kv.1 kv.2) (map_to_list st)).

(** [model.load_state_dict(sd, strict=..., assign=...)] of [torch.nn.Module].
    The layers load their own parameters first, and what their loading code
    raises ends the call.  Names are then matched one by one: a tensor of
    another shape than the parameter of its name is an error whatever
    [strict] is; names the module has and the file lacks ("missing"), and
    names the file has and the module lacks ("unexpected"), are an error
    only when [strict]. *)
Definition load_state_dict (E : Externals) (strict assign : bool)
    (sd : gmap string Tensor) (model : Network) : M Network :=
  run emit (EvLoadStateDict strict assign);
  match state_dict_hook_error E model sd with
  | Some e => raise e
  | None =>
      let missing_keys := dom (state_dict model) ∖ dom sd in
      let unexpected_keys := dom sd ∖ dom (state_dict model) in
      if size_mismatch sd (state_dict model) then
        raise (RuntimeError "Error(s) in loading state_dict")
      else if strict && negb (bool_decide (missing_keys = ∅ ∧ unexpected_keys = ∅)) then
        raise (RuntimeError "Error(s) in loading state_dict")
      else
        ret (mkNetwork (net_class model) (hparams model)
               (map_imap (overlay_tensor assign sd) (state_dict model))
               (quantized model))
  end.

(** [quantize_model_nf4(model, modules_to_not_convert=..., compute_dtype=...)] *)
Definition quantize_model_nf4 (E : Externals) (model : Network)
    (modules_to_not_convert : gset string) (compute_dtype : Dtype) : M Network :=
  run emit (EvQuantize model);
  match quantize_nf4 E model modules_to_not_convert compute_dtype with
  | None => raise (RuntimeError "quantize")
  | Some m => ret m
  end.

(** [cls.from_pretrained(src, max_length=...)] of [transformers] *)
Definition from_pretrained (E : Externals) (cls : HFClass) (src : Path)
    (max_length : option Z) : M AnyModel :=
  run emit (EvFromPretrained cls src);
  if pretrained_available E cls src then ret (Pretrained cls src max_length)
  else raise (OSError "from_pretrained").

(** [super()._load_model(config, submodel_type)] of [GenericDiffusersLoader] *)
Definition super_load_model (E : Externals) (config : AnyModelConfig)
    (submodel_type : option SubModelType) : M AnyModel :=
  run emit EvSuper; generic_load_model E config submodel_type.

Definition msg_only_transformer : string :=
  "Only Transformer submodels are currently supported.".
Definition msg_only_tokenizer_textencoder : string :=
  "Only Tokenizer and TextEncoder submodels are currently supported.".
Definition msg_only_checkpoint_base : string :=
  "Only CheckpointConfigBase models are currently supported here.".
Definition msg_only_clip : string :=
  "Only CLIPEmbedDiffusersConfig models are currently supported here.".
Definition msg_only_t5_8b : string :=
  "Only T5Encoder8bConfig models are currently supported here.".
Definition msg_only_t5 : string :=
  "Only T5EncoderConfig models are currently supported here.".

(** ** The loaders *)

Module FluxVAELoader.

Definition _load_model (E : Externals) (config : AnyModelConfig)
    (submodel_type : option SubModelType) : M AnyModel :=
  if isinstance config VAECheckpointConfig then
    let model_path := path config in
    let load_class := AutoEncoder in
    let legacy_config_path := pdiv (legacy_conf_path E) (config_path config) in
    let config_path := as_posix legacy_config_path in
    do flux_conf <- read_flux_conf E config_path;
    let dataclass_fields := field_names (AutoEncoderParams E) in
    do items <- lift (params_items flux_conf);
    let filtered_data := filter_params dataclass_fields items in
    do params <- lift (dataclass_init (AutoEncoderParams E) filtered_data);
    do model <- with_ SilenceWarnings (
      do model <- construct E load_class params;
      do sd <- load_file E model_path;
      load_state_dict E false true sd model);
    ret (Net model)
  else
    super_load_model E config submodel_type.

End FluxVAELoader.

Module ClipCheckpointModel.

Definition _load_model (E : Externals) (config : AnyModelConfig)
    (submodel_type : option SubModelType) : M AnyModel :=
  if negb (isinstance config CLIPEmbedDiffusersConfig) then
    raise (Exception msg_only_clip)
  else
    match submodel_type with
    | Some Tokenizer => from_pretrained E CLIPTokenizer (path config) (Some 77)
    | Some TextEncoder => from_pretrained E CLIPTextModel (path config) None
    | _ => raise (Exception msg_only_tokenizer_textencoder)
    end.

End ClipCheckpointModel.

Module T5Encoder8bCheckpointModel.

Definition _load_model (E : Externals) (config : AnyModelConfig)
    (submodel_type : option SubModelType) : M AnyModel :=
  if negb (isinstance config T5Encoder8bConfig) then
    raise (Exception msg_only_t5_8b)
  else
    match submodel_type with
    | Some Tokenizer2 =>
        from_pretrained E T5Tokenizer (pchild (path config) "tokenizer_2") (Some 512)
    | Some TextEncoder2 =>
        from_pretrained E FastQuantizedTransformersModel
          (pchild (path config) "text_encoder_2") None
    | _ => raise (Exception msg_only_tokenizer_textencoder)
    end.

End T5Encoder8bCheckpointModel.

Module T5EncoderCheckpointModel.

Definition _load_model (E : Externals) (config : AnyModelConfig)
    (submodel_type : option SubModelType) : M AnyModel :=
  if negb (isinstance config T5EncoderConfig) then
    raise (Exception msg_only_t5)
  else
    match submodel_type with
    | Some Tokenizer2 =>
        from_pretrained E T5Tokenizer (pchild (path config) "tokenizer_2") (Some 512)
    | Some TextEncoder2 =>
        from_pretrained E T5EncoderModel (pchild (path config) "text_encoder_2") None
    | _ => raise (Exception msg_only_tokenizer_textencoder)
    end.

End T5EncoderCheckpointModel.

Module FluxCheckpointModel.

Definition _load_from_singlefile (E : Externals) (config : AnyModelConfig)
    (flux_conf : YamlValue) : M AnyModel :=
  if negb (isinstance config MainCheckpointConfig) then raise AssertionError
  else
    let load_class := Flux in
    let model_path := path config in
    let dataclass_fields := field_names (FluxParams E) in
    do items <- lift (params_items flux_conf);
    let filtered_data := filter_params dataclass_fields items in
    do params <- lift (dataclass_init (FluxParams E) filtered_data);
    do model <- with_ SilenceWarnings (
      do model <- construct E load_class params;
      do sd <- load_file E model_path;
      load_state_dict E false true sd model);
    ret (Net model).

Definition _load_model (E : Externals) (config : AnyModelConfig)
    (submodel_type : option SubModelType) : M AnyModel :=
  if negb (isinstance config CheckpointConfigBase) then
    raise (Exception msg_only_checkpoint_base)
  else
    let legacy_config_path := pdiv (legacy_conf_path E) (config_path config) in
    let config_path := as_posix legacy_config_path in
    do flux_conf <- read_flux_conf E config_path;
    match submodel_type with
    | Some Transformer => _load_from_singlefile E config flux_conf
    | _ => raise (Exception msg_only_transformer)
    end.

End FluxCheckpointModel.

Module FluxBnbQuantizednf4bCheckpointModel.

Definition _load_from_singlefile (E : Externals) (config : AnyModelConfig)
    (flux_conf : YamlValue) : M AnyModel :=
  if negb (isinstance config MainBnbQuantized4bCheckpointConfig) then raise AssertionError
  else
    let load_class := Flux in
    let model_path := path config in
    let dataclass_fields := field_names (FluxParams E) in
    do items <- lift (params_items flux_conf);
    let filtered_data := filter_params dataclass_fields items in
    do params <- lift (dataclass_init (FluxParams E) filtered_data);
    do model <- with_ SilenceWarnings (
      do model <- with_ init_empty_weights (
        do model <- construct E load_class params;
        quantize_model_nf4 E model ∅ bfloat16);
      do sd <- load_file E model_path;
      load_state_dict E false true sd model);
    ret (Net model).

Definition _load_model (E : Externals) (config : AnyModelConfig)
    (submodel_type : option SubModelType) : M AnyModel :=
  if negb (isinstance config CheckpointConfigBase) then
    raise (Exception msg_only_checkpoint_base)
  else
    let legacy_config_path := pdiv (legacy_conf_path E) (config_path config) in
    let config_path := as_posix legacy_config_path in
    do flux_conf <- read_flux_conf E config_path;
    match submodel_type with
    | Some Transformer => _load_from_singlefile E config flux_conf
    | _ => raise (Exception msg_only_transformer)
    end.

End FluxBnbQuantizednf4bCheckpointModel.

(** ** The loader classes as a table *)

Inductive LoaderClass :=
| cFluxVAELoader
| cClipCheckpointModel
| cT5Encoder8bCheckpointModel
| cT5EncoderCheckpointModel
| cFluxCheckpointModel
| cFluxBnbQuantizednf4bCheckpointModel.

Definition load_model (l : LoaderClass) :
    Externals → AnyModelConfig → option SubModelType → M AnyModel :=
  match l with
  | cFluxVAELoader => FluxVAELoader._load_model
  | cClipCheckpointModel => ClipCheckpointModel._load_model
  | cT5Encoder8bCheckpointModel => T5Encoder8bCheckpointModel._load_model
  | cT5EncoderCheckpointModel => T5EncoderCheckpointModel._load_model
  | cFluxCheckpointModel => FluxCheckpointModel._load_model
  | cFluxBnbQuantizednf4bCheckpointModel => FluxBnbQuantizednf4bCheckpointModel._load_model
  end.

(** The class named in the [isinstance] test at the top of [_load_model]. *)
Definition guard_class (l : LoaderClass) : ConfigClass :=
  match l with
  | cFluxVAELoader => VAECheckpointConfig
  | cClipCheckpointModel => CLIPEmbedDiffusersConfig
  | cT5Encoder8bCheckpointModel => T5Encoder8bConfig
  | cT5EncoderCheckpointModel => T5EncoderConfig
  | cFluxCheckpointModel | cFluxBnbQuantizednf4bCheckpointModel => CheckpointConfigBase
  end.

(** The message of the exception raised when that test fails
    ([FluxVAELoader] raises none). *)
Definition guard_msg (l : LoaderClass) : string :=
  match l with
  | cFluxVAELoader => ""
  | cClipCheckpointModel => msg_only_clip
  | cT5Encoder8bCheckpointModel => msg_only_t5_8b
  | cT5EncoderCheckpointModel => msg_only_t5
  | cFluxCheckpointModel | cFluxBnbQuantizednf4bCheckpointModel => msg_only_checkpoint_base
  end.

(** The concrete class a loader goes on to work with: for the two
    single-file loaders the one asserted in [_load_from_singlefile]. *)
Definition expected_class (l : LoaderClass) : ConfigClass :=
  match l with
  | cFluxCheckpointModel => MainCheckpointConfig
  | cFluxBnbQuantizednf4bCheckpointModel => MainBnbQuantized4bCheckpointConfig
  | _ => guard_class l
  end.

(** The sub-parts that have a [case] arm; [FluxVAELoader] does not look at
    the sub-part at all. *)
Definition supported (l : LoaderClass) (submodel_type : option SubModelType) : bool :=
  match l, submodel_type with
  | cFluxVAELoader, _ => true
  | cClipCheckpointModel, Some (Tokenizer | TextEncoder) => true
  | (cT5Encoder8bCheckpointModel | cT5EncoderCheckpointModel),
    Some (Tokenizer2 | TextEncoder2) => true
  | (cFluxCheckpointModel | cFluxBnbQuantizednf4bCheckpointModel), Some Transformer => true
  | _, _ => false
  end.

(** The message of the exception raised after the [match] falls through. *)
Definition unsupported_msg (l : LoaderClass) : string :=
  match l with
  | cFluxCheckpointModel | cFluxBnbQuantizednf4bCheckpointModel => msg_only_transformer
  | _ => msg_only_tokenizer_textencoder
  end.

(** The two loaders that read a single weight file for the transformer. *)
Definition single_file (l : LoaderClass) : bool :=
  match l with
  | cFluxCheckpointModel | cFluxBnbQuantizednf4bCheckpointModel => true
  | _ => false
  end.

(** The three loaders that read the architecture document. *)
Definition reads_metadata (l : LoaderClass) : bool :=
  match l with
  | cFluxVAELoader | cFluxCheckpointModel | cFluxBnbQuantizednf4bCheckpointModel => true
  | _ => false
  end.

(** The file name handed to [open]. *)
Definition metadata_file (E : Externals) (config : AnyModelConfig) : string :=
  as_posix (pdiv (legacy_conf_path E) (config_path config)).

(** ** Vocabulary of the properties *)

(** The dataclass and the network class a checkpoint loader works with. *)
Definition params_fields (E : Externals) (l : LoaderClass) : list Field :=
  match l with
  | cFluxVAELoader => AutoEncoderParams E
  | _ => FluxParams E
  end.

Definition network_class (l : LoaderClass) : NetClass :=
  match l with
  | cFluxVAELoader => AutoEncoder
  | _ => Flux
  end.

(** The architecture document of [config] can be read, and gives [params]. *)
Definition resolves_to (E : Externals) (l : LoaderClass) (config : AnyModelConfig)
    (params : Items) : Prop :=
  ∃ text flux_conf items,
    file_text E (metadata_file E config) = Some text
    ∧ yaml_safe_load E text = Some flux_conf
    ∧ params_items flux_conf = Ok items
    ∧ dataclass_init (params_fields E l)
        (filter_params (field_names (params_fields E l)) items) = Ok params.

(** Does the run get as far as [flux_conf["params"]]? *)
Definition reaches_params (l : LoaderClass) (config : AnyModelConfig)
    (submodel_type : option SubModelType) : bool :=
  if single_file l then
    isinstance config (expected_class l) && bool_decide (submodel_type = Some Transformer)
  else true.

(** Only the document has been touched: the logged calls are [open] and
    [yaml.safe_load], no constructor, no [from_pretrained], no weight file. *)
Definition metadata_only (st : Stamp) : Prop :=
  match event st with
  | EvOpen _ | EvYamlLoad => True
  | _ => False
  end.

(** The calls made inside the [with SilenceWarnings():] block. *)
Definition in_load_scope (ev : Event) : bool :=
  match ev with
  | EvConstruct _ | EvQuantize _ | EvLoadFile _ | EvLoadStateDict _ _ => true
  | _ => false
  end.

(** No parameter of the network has backing storage. *)
Definition all_meta (m : Network) : Prop :=
  ∀ name t, state_dict m !! name = Some t → t = MetaTensor (tensor_shape t).

(** The outside calls of a quantized load that runs to its end, in order. *)
Definition quantized_load_order (config : AnyModelConfig) (s : State) (skeleton : Network)
    : list Stamp :=
  [ mkStamp (EvConstruct Flux) ERROR true;
    mkStamp (EvQuantize skeleton) ERROR true;
    mkStamp (EvLoadFile (path config)) ERROR (meta_mode s);
    mkStamp (EvLoadStateDict false true) ERROR (meta_mode s) ].

(** The sentence of the specification behind C1: a record of the wrong
    variant fails with the config-type exception before any file is
    touched. *)
Definition fails_fast_on_variant_mismatch : Prop :=
  ∀ E l config submodel_type s,
    single_file l = true →
    isinstance config (expected_class l) = false →
    load_model l E config submodel_type s
      = (Raise (Exception msg_only_checkpoint_base), s).

(** The sentence of the specification behind C5, for every loader, record
    and sub-part. *)
Definition unsupported_subpart_error_always : Prop :=
  ∀ E l config submodel_type s,
    supported l submodel_type = false →
    ∃ s', load_model l E config submodel_type s
            = (Raise (Exception (unsupported_msg l)), s').


(** The second half of the sentence behind C8: every loader but
    [FluxVAELoader] fails at once, nothing touched, on a record that is not
    of the class it works with. *)
Definition others_fail_at_once : Prop :=
  ∀ E l config submodel_type s,
    l ≠ cFluxVAELoader →
    isinstance config (expected_class l) = false →
    ∃ e, load_model l E config submodel_type s = (Raise e, s).

(** ** A concrete world, after the example scenario of the specification *)

Module Scenario.

Definition vae_params : Items :=
  [("resolution", YInt 256); ("in_channels", YInt 3); ("extra_unused_field", YInt 99)].

Definition vae_yaml : YamlValue := YMap [("target", YStr "autoencoder"); ("params", YMap vae_params)].

Definition flux_yaml : YamlValue :=
  YMap [("params", YMap [("in_channels", YInt 64); ("depth", YInt 19); ("legacy", YNull)])].

Definition no_params_yaml : YamlValue := YMap [("model", YMap [])].

Definition skeleton : gmap string Tensor :=
  <["A" := Data [4; 4]%nat 1]>
    (<["B" := Data [4; 2]%nat 2]> (<["C" := Data [2]%nat 3]> ∅)).

Definition weights : gmap string Tensor :=
  <["B" := Data [4; 2]%nat 20]>
    (<["C" := Data [2]%nat 30]> (<["D" := Data [8]%nat 40]> ∅)).

Definition world : Externals := {|
  legacy_conf_path := mkPath true ["configs"];
  file_text f :=
    if bool_decide (f = "/configs/vae.yaml") then Some "vae"
    else if bool_decide (f = "/configs/flux.yaml") then Some "flux"
    else if bool_decide (f = "/configs/bare.yaml") then Some "bare"
    else None;
  open_error f := FileNotFoundError f;
  yaml_safe_load text :=
    if bool_decide (text = "vae") then Some vae_yaml
    else if bool_decide (text = "flux") then Some flux_yaml
    else if bool_decide (text = "bare") then Some no_params_yaml
    else None;
  AutoEncoderParams :=
    [mkField "resolution" None; mkField "in_channels" None;
     mkField "out_channels" (Some (YInt 3))];
  FluxParams := [mkField "in_channels" None; mkField "depth" None];
  fresh_parameters _ _ := Some skeleton;
  safetensors p := if bool_decide (parts p = ["missing.safetensors"]) then None else Some weights;
  state_dict_hook_error _ _ := None;
  quantize_nf4 m _ _ := Some (mkNetwork (net_class m) (hparams m) (state_dict m) true);
  pretrained_available _ _ := true;
  generic_load_model c _ := ret (Pretrained CLIPTextModel (path c) None)
|}.

Definition vae_config : AnyModelConfig :=
  mkConfig VAECheckpointConfig (mkPath false ["vae.safetensors"]) (mkPath false ["vae.yaml"]).

Definition flux_config : AnyModelConfig :=
  mkConfig MainCheckpointConfig (mkPath false ["flux.safetensors"]) (mkPath false ["flux.yaml"]).

Definition nf4_config : AnyModelConfig :=
  mkConfig MainBnbQuantized4bCheckpointConfig (mkPath false ["flux-nf4.safetensors"])
    (mkPath false ["flux.yaml"]).

Definition bare_config (cls : ConfigClass) : AnyModelConfig :=
  mkConfig cls (mkPath false ["flux.safetensors"]) (mkPath false ["bare.yaml"]).

Definition t5_config : AnyModelConfig :=
  mkConfig T5EncoderConfig (mkPath true ["models"; "t5"]) (mkPath false []).

Definition t5_8b_config : AnyModelConfig :=
  mkConfig T5Encoder8bConfig (mkPath true ["models"; "t5"]) (mkPath false []).

Definition clip_config : AnyModelConfig :=
  mkConfig CLIPEmbedDiffusersConfig (mkPath true ["models"; "clip"]) (mkPath false []).

Definition s0 : State := mkState 30 false [].

End Scenario.

(** ** The registrations *)

(** The members of [BaseModelType], [ModelType] and [ModelFormat] named in
    the [@ModelLoaderRegistry.register(...)] decorators of the file. *)
Module BaseModelType.
Inductive t := Any | Flux.
End BaseModelType.

Module ModelType.
Inductive t := VAE | CLIPEmbed | T5Encoder | Main.
End ModelType.

Module ModelFormat.
Inductive t := Checkpoint | Diffusers | T5Encoder8b | T5Encoder | BnbQuantizednf4b.
End ModelFormat.

(** [base], [type] and [format] of the decorator on each class. *)
Definition registration (l : LoaderClass)
    : BaseModelType.t * ModelType.t * ModelFormat.t :=
  match l with
  | cFluxVAELoader =>
      (BaseModelType.Flux, ModelType.VAE, ModelFormat.Checkpoint)
  | cClipCheckpointModel =>
      (BaseModelType.Any, ModelType.CLIPEmbed, ModelFormat.Diffusers)
  | cT5Encoder8bCheckpointModel =>
      (BaseModelType.Any, ModelType.T5Encoder, ModelFormat.T5Encoder8b)
  | cT5EncoderCheckpointModel =>
      (BaseModelType.Any, ModelType.T5Encoder, ModelFormat.T5Encoder)
  | cFluxCheckpointModel =>
      (BaseModelType.Flux, ModelType.Main, ModelFormat.Checkpoint)
  | cFluxBnbQuantizednf4bCheckpointModel =>
      (BaseModelType.Flux, ModelType.Main, ModelFormat.BnbQuantizednf4b)
  end.

(** ** Summaries of what the checkpoint loaders compute *)

(** What a field of the parameter dataclass ends up holding: the value the
    document gives under the field's name, else the field's default. *)
Definition field_value (items : Items) (f : Field) : option (string * YamlValue) :=
  match dict_get (field_name f) items with
  | Some v => Some (field_name f, v)
  | None => (λ v, (field_name f, v)) <$> field_default f
  end.

(** From the parsed document to the constructor arguments: the lookup of
    [params], the filter, and the dataclass constructor, as the three
    checkpoint loaders chain them. *)
Definition resolve_params (E : Externals) (l : LoaderClass) (flux_conf : YamlValue)
    : Result Items :=
  match params_items flux_conf with
  | Ok items =>
      dataclass_init (params_fields E l)
        (filter_params (field_names (params_fields E l)) items)
  | Raise e => Raise e
  end.

(** The network a loader has in hand when it turns to the weight file: the
    skeleton as constructed and, on the quantized path, built in "empty
    weights" mode and passed through the quantization routine. *)
Definition skeleton_for (E : Externals) (l : LoaderClass) (s : State) (params : Items)
    : option Network :=
  match fresh_parameters E (network_class l) params with
  | None => None
  | Some ps =>
      match l with
      | cFluxBnbQuantizednf4bCheckpointModel =>
          quantize_nf4 E (mkNetwork Flux params (materialize true ps) false) ∅ bfloat16
      | _ =>
          Some (mkNetwork (network_class l) params (materialize (meta_mode s) ps) false)
      end
  end.

(** The overlay of [sd] onto [model] goes through: no layer's loading code
    objects, and no tensor of the file has another shape than the parameter
    of its name. *)
Definition overlay_accepts (E : Externals) (sd : gmap string Tensor) (model : Network)
    : Prop :=
  state_dict_hook_error E model sd = None
  ∧ ∀ name old new,
      state_dict model !! name = Some old → sd !! name = Some new →
      tensor_shape new = tensor_shape old.

(** The network after [load_state_dict(sd, strict=False, assign=True)]. *)
Definition overlaid (sd : gmap string Tensor) (model : Network) : Network :=
  mkNetwork (net_class model) (hparams model)
    (map_imap (overlay_tensor true sd) (state_dict model)) (quantized model).

(** The outside calls of a checkpoint load that runs to its end, in order. *)
Definition checkpoint_load_order (E : Externals) (l : LoaderClass)
    (config : AnyModelConfig) (s : State) (skeleton : Network) : list Stamp :=
  [ mkStamp (EvOpen (metadata_file E config)) (verbosity s) (meta_mode s);
    mkStamp EvYamlLoad (verbosity s) (meta_mode s) ]
  ++ match l with
     | cFluxBnbQuantizednf4bCheckpointModel => quantized_load_order config s skeleton
     | _ =>
         [ mkStamp (EvConstruct (network_class l)) ERROR (meta_mode s);
           mkStamp (EvLoadFile (path config)) ERROR (meta_mode s);
           mkStamp (EvLoadStateDict false true) ERROR (meta_mode s) ]
     end.

(** ** A second world, for the edges *)

Module Edge.

(** A document whose [params] lack the required [depth]. *)
Definition thin_yaml : YamlValue := YMap [("params", YMap [("in_channels", YInt 64)])].

(** A weight file with the names of the example, whose tensor for [B] has
    another shape than the skeleton's. *)
Definition reshaped_weights : gmap string Tensor :=
  <["B" := Data [8]%nat 20]>
    (<["C" := Data [2]%nat 30]> (<["D" := Data [8]%nat 40]> ∅)).

(** The example world with three more documents (an empty one, one that
    does not parse, and [thin_yaml]), with the configuration root itself
    being a directory, with one more weight file, with quantized layers
    that insist on finding their weight [A] in the file, and without the
    text encoder of CLIP. *)
Definition world : Externals := {|
  legacy_conf_path := legacy_conf_path Scenario.world;
  file_text f :=
    if bool_decide (f = "/configs/empty.yaml") then Some ""
    else if bool_decide (f = "/configs/broken.yaml") then Some "a: [b"
    else if bool_decide (f = "/configs/thin.yaml") then Some "thin"
    else file_text Scenario.world f;
  open_error f :=
    if bool_decide (f = "/configs") then IsADirectoryError f
    else if bool_decide (f = "/configs/secret.yaml") then PermissionError f
    else FileNotFoundError f;
  yaml_safe_load text :=
    if bool_decide (text = "") then Some YNull
    else if bool_decide (text = "thin") then Some thin_yaml
    else yaml_safe_load Scenario.world text;
  AutoEncoderParams := AutoEncoderParams Scenario.world;
  FluxParams := FluxParams Scenario.world;
  fresh_parameters := fresh_parameters Scenario.world;
  safetensors p :=
    if bool_decide (parts p = ["reshaped.safetensors"]) then Some reshaped_weights
    else safetensors Scenario.world p;
  state_dict_hook_error m sd :=
    if quantized m && bool_decide (sd !! "A" = None) then Some (KeyError "A") else None;
  quantize_nf4 := quantize_nf4 Scenario.world;
  pretrained_available cls _ :=
    match cls with CLIPTextModel => false | _ => true end;
  generic_load_model := generic_load_model Scenario.world
|}.

Definition config_with (cls : ConfigClass) (yaml : string) : AnyModelConfig :=
  mkConfig cls (mkPath false ["flux.safetensors"]) (mkPath false [yaml]).

End Edge.

(** ** Running the monad by hand *)

Ltac unfold_monad :=
  unfold read_flux_conf, construct, load_file, load_state_dict, quantize_model_nf4,
    from_pretrained, super_load_model, with_, bind, ret, raise, lift, emit,
    SilenceWarnings, init_empty_weights in *;
  cbn [cm_enter cm_exit verbosity meta_mode trace fst snd] in *.

Ltac unfold_calls :=
  unfold read_flux_conf, construct, load_file, quantize_model_nf4, with_, bind, ret,
    raise, lift, emit, SilenceWarnings, init_empty_weights in *;
  cbn [cm_enter cm_exit verbosity meta_mode trace fst snd] in *.

Ltac case_step :=
  match goal with
  | |- context [match ?x with _ => _ end] =>
      lazymatch x with
      | context [match _ with _ => _ end] => fail
      | _ => destruct x eqn:?
      end
  end.

Lemma state_eta (s : State) : mkState (verbosity s) (meta_mode s) (trace s) = s.
Proof. by destruct s. Qed.

(** ** Config-type guards (C1, C8) *)

(** C8, as the code has it.  A configuration record that is not a
    [VAECheckpointConfig] makes [FluxVAELoader._load_model] hand the load to
    the generic super-class loader, with the same record and sub-part; it
    raises nothing itself, and what the call gives is what the generic
    loader gives.  Every other loader of the module raises its "Only ...
    models are currently supported here." exception at once, the state
    untouched, when the record fails the [isinstance] test at the top of its
    [_load_model]: for the three directory loaders that is every record of
    another class; for the two main loaders it is every record that is not
    a [CheckpointConfigBase], while a [CheckpointConfigBase] of the wrong
    variant is turned down only after the architecture document has been
    opened. *)
Theorem vae_loader_delegates (E : Externals) (config : AnyModelConfig)
    (submodel_type : option SubModelType) (s : State) :
  isinstance config VAECheckpointConfig = false →
  FluxVAELoader._load_model E config submodel_type s
    = generic_load_model E config submodel_type
        (mkState (verbosity s) (meta_mode s)
           (trace s ++ [mkStamp EvSuper (verbosity s) (meta_mode s)]))
  ∧ (∀ l other, l ≠ cFluxVAELoader →
       isinstance other (guard_class l) = false →
       load_model l E other submodel_type s = (Raise (Exception (guard_msg l)), s))
  ∧ (∀ l other, reads_metadata l = false →
       config_class other ≠ guard_class l →
       load_model l E other submodel_type s = (Raise (Exception (guard_msg l)), s))
  ∧ (∀ l other, single_file l = true →
       isinstance other CheckpointConfigBase = true →
       isinstance other (expected_class l) = false →
       ∃ e evs,
         load_model l E other submodel_type s
         = (Raise e,
            mkState (verbosity s) (meta_mode s)
              (trace s ++ mkStamp (EvOpen (metadata_file E other))
                            (verbosity s) (meta_mode s) :: evs))).
Proof.
  intros Hvae.
  assert (∀ l other, l ≠ cFluxVAELoader →
            isinstance other (guard_class l) = false →
            load_model l E other submodel_type s
            = (Raise (Exception (guard_msg l)), s)) as Hguards.
  { intros l other Hl Hguard.
    destruct l; [done | ..]; cbn [load_model guard_class guard_msg] in *;
      [ unfold ClipCheckpointModel._load_model
      | unfold T5Encoder8bCheckpointModel._load_model
      | unfold T5EncoderCheckpointModel._load_model
      | unfold FluxCheckpointModel._load_model
      | unfold FluxBnbQuantizednf4bCheckpointModel._load_model ];
      by rewrite Hguard. }
  split; [| split; [done | split]].
  - unfold FluxVAELoader._load_model. rewrite Hvae.
    unfold super_load_model, bind, emit. done.
  - intros l other Hl Hcls. apply Hguards; [by destruct l |].
    unfold isinstance. destruct l; try discriminate Hl;
      destruct other as [[] ? ?]; cbn in *; done.
  - intros l other Hl Hbase Hexp.
    destruct l; try discriminate Hl; cbn [load_model expected_class] in *;
      [ unfold FluxCheckpointModel._load_model, FluxCheckpointModel._load_from_singlefile
      | unfold FluxBnbQuantizednf4bCheckpointModel._load_model,
          FluxBnbQuantizednf4bCheckpointModel._load_from_singlefile ];
      rewrite Hbase, Hexp; fold (metadata_file E other); cbn [negb]; unfold_calls;
      (destruct (file_text E _) as [text|]; [destruct (yaml_safe_load E text) |]);
      try (destruct submodel_type as [[]|]);
      cbn [verbosity meta_mode trace];
      eexists _, _; rewrite <- ?app_assoc; reflexivity.
Qed.

Lemma vae_loader_delegates_witness :
  FluxVAELoader._load_model Scenario.world Scenario.clip_config (Some TextEncoder) Scenario.s0
  = generic_load_model Scenario.world Scenario.clip_config (Some TextEncoder)
      (mkState 30 false ([] ++ [mkStamp EvSuper 30 false])).
Proof.
  apply (vae_loader_delegates Scenario.world Scenario.clip_config (Some TextEncoder) Scenario.s0).
  reflexivity.
Defined.

(** A main-checkpoint record given to the quantized loader: it is not of
    the class that loader works with, yet the load does not stop at once;
    the architecture document is opened and parsed first. *)
Lemma main_config_reaches_the_yaml_file_of_nf4 :
  isinstance Scenario.flux_config MainBnbQuantized4bCheckpointConfig = false
  ∧ FluxBnbQuantizednf4bCheckpointModel._load_model Scenario.world Scenario.flux_config
      (Some Transformer) Scenario.s0
    = (Raise AssertionError,
       mkState 30 false [mkStamp (EvOpen "/configs/flux.yaml") 30 false;
                         mkStamp EvYamlLoad 30 false])
  ∧ ¬ others_fail_at_once.
Proof.
  split; [reflexivity |]. split; [reflexivity |].
  intros H.
  destruct (H Scenario.world cFluxBnbQuantizednf4bCheckpointModel Scenario.flux_config
              (Some Transformer) Scenario.s0) as [e He]; [done | reflexivity |].
  discriminate He.
Qed.

(** C1, as the code has it.  Take a single-file loader and a record that is
    not of the concrete class the loader asserts.  When the record is not
    even a [CheckpointConfigBase], the load fails with the config-type
    exception and the state is untouched: nothing was opened.  When it is a
    [CheckpointConfigBase] of another variant, the load fails as well, but
    the architecture document has been opened (and, when readable, parsed)
    by then; no skeleton is built and no weight file is read.  With a
    document that was read, the failure is the assertion of
    [_load_from_singlefile] for the [Transformer] sub-part and the
    "Only Transformer submodels" exception for any other. *)
Theorem single_file_variant_mismatch (E : Externals) (l : LoaderClass)
    (config : AnyModelConfig) (submodel_type : option SubModelType) (s : State) :
  single_file l = true →
  isinstance config (expected_class l) = false →
  if isinstance config CheckpointConfigBase then
    ∃ e evs,
      load_model l E config submodel_type s
        = (Raise e,
           mkState (verbosity s) (meta_mode s)
             (trace s ++ mkStamp (EvOpen (metadata_file E config))
                           (verbosity s) (meta_mode s) :: evs))
      ∧ (evs = [] ∨ evs = [mkStamp EvYamlLoad (verbosity s) (meta_mode s)])
      ∧ (∀ text flux_conf,
           file_text E (metadata_file E config) = Some text →
           yaml_safe_load E text = Some flux_conf →
           e = if bool_decide (submodel_type = Some Transformer) then AssertionError
               else Exception msg_only_transformer)
  else
    load_model l E config submodel_type s
      = (Raise (Exception msg_only_checkpoint_base), s).
Proof.
  intros Hl Hexp.
  destruct l; try discriminate Hl; cbn [load_model expected_class] in *;
    [ unfold FluxCheckpointModel._load_model, FluxCheckpointModel._load_from_singlefile
    | unfold FluxBnbQuantizednf4bCheckpointModel._load_model,
        FluxBnbQuantizednf4bCheckpointModel._load_from_singlefile ];
    rewrite Hexp; fold (metadata_file E config);
    (destruct (isinstance config CheckpointConfigBase); [| done]);
    cbn [negb]; unfold_monad;
    (destruct (file_text E _) as [text|] eqn:Htext;
       [destruct (yaml_safe_load E text) as [flux_conf|] eqn:Hyaml |]);
    try (destruct submodel_type as [[]|]);
    cbn [verbosity meta_mode trace];
    eexists _, _; (split; [rewrite <- ?app_assoc; reflexivity |]);
    (split; [auto |]);
    intros text' flux_conf' Htext' Hyaml'; try done; congruence.
Qed.

Lemma single_file_variant_mismatch_witness :
  ∃ e evs,
    load_model cFluxCheckpointModel Scenario.world Scenario.vae_config (Some Transformer) Scenario.s0
      = (Raise e, mkState 30 false
           ([] ++ mkStamp (EvOpen "/configs/vae.yaml") 30 false :: evs))
    ∧ (evs = [] ∨ evs = [mkStamp EvYamlLoad 30 false])
    ∧ (∀ text flux_conf,
         file_text Scenario.world "/configs/vae.yaml" = Some text →
         yaml_safe_load Scenario.world text = Some flux_conf →
         e = AssertionError).
Proof.
  apply (single_file_variant_mismatch Scenario.world cFluxCheckpointModel
           Scenario.vae_config (Some Transformer) Scenario.s0); reflexivity.
Defined.

(** A VAE checkpoint record given to the transformer loader: the document
    is opened and parsed, and the load then stops on the assertion. *)
Lemma vae_config_reaches_the_yaml_file :
  isinstance Scenario.vae_config MainCheckpointConfig = false
  ∧ FluxCheckpointModel._load_model Scenario.world Scenario.vae_config (Some Transformer)
      Scenario.s0
    = (Raise AssertionError,
       mkState 30 false [mkStamp (EvOpen "/configs/vae.yaml") 30 false;
                         mkStamp EvYamlLoad 30 false])
  ∧ ¬ fails_fast_on_variant_mismatch.
Proof.
  split; [reflexivity |]. split; [reflexivity |].
  intros H.
  specialize (H Scenario.world cFluxCheckpointModel Scenario.vae_config (Some Transformer)
                Scenario.s0 eq_refl eq_refl).
  discriminate H.
Qed.

(** ** Sub-part dispatch (C5, C10) *)


(** C5, as the code has it.  A sub-part without a [case] arm makes the load
    fail, and nothing is constructed on the way: the only outside calls are
    the opening and parsing of the architecture document by the two main
    checkpoint loaders.  The exception is the "Only ... submodels are
    currently supported." one whenever the record passes the loader's
    [isinstance] test and, for the loaders that read the document first, the
    document could be opened and parsed. *)
Theorem unsupported_subpart_fails (E : Externals) (l : LoaderClass)
    (config : AnyModelConfig) (submodel_type : option SubModelType) (s : State) :
  supported l submodel_type = false →
  ∃ e evs,
    load_model l E config submodel_type s
      = (Raise e, mkState (verbosity s) (meta_mode s) (trace s ++ evs))
    ∧ Forall metadata_only evs
    ∧ (isinstance config (guard_class l) = true →
       (reads_metadata l = true →
        ∃ text doc, file_text E (metadata_file E config) = Some text
                    ∧ yaml_safe_load E text = Some doc) →
       e = Exception (unsupported_msg l)).
Proof.
  intros Hsup.
  destruct l; cbn [load_model guard_class reads_metadata unsupported_msg] in *;
    [ discriminate Hsup
    | unfold ClipCheckpointModel._load_model
    | unfold T5Encoder8bCheckpointModel._load_model
    | unfold T5EncoderCheckpointModel._load_model
    | unfold FluxCheckpointModel._load_model
    | unfold FluxBnbQuantizednf4bCheckpointModel._load_model ].
  1-3: destruct (isinstance config _); cbn [negb];
       [ destruct submodel_type as [[]|]; try discriminate Hsup |];
       unfold raise; eexists _, [];
       (split; [by rewrite app_nil_r, state_eta |]);
       (split; [constructor |]); done.
  1-2: fold (metadata_file E config).
  1-2: destruct (isinstance config CheckpointConfigBase); cbn [negb]; unfold_monad.
  2, 4: eexists _, []; (split; [by rewrite app_nil_r, state_eta |]);
        (split; [constructor | done]).
  1-2: destruct (file_text E _) as [text|] eqn:Htext;
         [destruct (yaml_safe_load E text) as [doc|] eqn:Hdoc' |].
  1, 4: destruct submodel_type as [[]|]; try discriminate Hsup.
  all: cbn [verbosity meta_mode trace]; rewrite <- ?app_assoc; cbn [app];
       eexists _, _; (split; [reflexivity |]);
       (split; [repeat (constructor; try exact I) |]);
       try done;
       intros _ Hdoc; destruct (Hdoc eq_refl) as (? & ? & ? & ?); congruence.
Qed.

Lemma unsupported_subpart_fails_witness :
  ∃ e evs,
    load_model cFluxCheckpointModel Scenario.world Scenario.flux_config (Some VAE) Scenario.s0
      = (Raise e, mkState 30 false ([] ++ evs))
    ∧ Forall metadata_only evs
    ∧ (isinstance Scenario.flux_config CheckpointConfigBase = true →
       (true = true →
        ∃ text doc, file_text Scenario.world "/configs/flux.yaml" = Some text
                    ∧ yaml_safe_load Scenario.world text = Some doc) →
       e = Exception msg_only_transformer).
Proof.
  apply (unsupported_subpart_fails Scenario.world cFluxCheckpointModel Scenario.flux_config
           (Some VAE) Scenario.s0).
  reflexivity.
Defined.

(** The CLIP loader, asked for a transformer with a T5 record: the record is
    tested first, and the complaint is about the record. *)
Lemma clip_loader_reports_the_config_first :
  supported cClipCheckpointModel (Some Transformer) = false
  ∧ ClipCheckpointModel._load_model Scenario.world Scenario.t5_config (Some Transformer)
      Scenario.s0
    = (Raise (Exception msg_only_clip), Scenario.s0)
  ∧ ¬ unsupported_subpart_error_always.
Proof.
  split; [reflexivity |]. split; [reflexivity |].
  intros H.
  destruct (H Scenario.world cClipCheckpointModel Scenario.t5_config (Some Transformer)
              Scenario.s0 eq_refl) as [s' Hs'].
  discriminate Hs'.
Qed.

(** C10.  Asked for [Tokenizer2], the plain and the 8-bit T5 loader do the
    same thing on records with the same path: [T5Tokenizer.from_pretrained]
    on the [tokenizer_2] sub-directory with [max_length=512].  They agree on
    every other sub-part too, except [TextEncoder2], where the same
    [text_encoder_2] sub-directory goes to two different classes. *)
Theorem t5_loaders_agree_on_tokenizer (E : Externals) (c8 c : AnyModelConfig) (s : State) :
  isinstance c8 T5Encoder8bConfig = true →
  isinstance c T5EncoderConfig = true →
  path c8 = path c →
  T5Encoder8bCheckpointModel._load_model E c8 (Some Tokenizer2) s
    = from_pretrained E T5Tokenizer (pchild (path c) "tokenizer_2") (Some 512) s
  ∧ T5EncoderCheckpointModel._load_model E c (Some Tokenizer2) s
    = from_pretrained E T5Tokenizer (pchild (path c) "tokenizer_2") (Some 512) s
  ∧ (∀ submodel_type, submodel_type ≠ Some TextEncoder2 →
       T5Encoder8bCheckpointModel._load_model E c8 submodel_type s
       = T5EncoderCheckpointModel._load_model E c submodel_type s)
  ∧ T5Encoder8bCheckpointModel._load_model E c8 (Some TextEncoder2) s
    = from_pretrained E FastQuantizedTransformersModel
        (pchild (path c) "text_encoder_2") None s
  ∧ T5EncoderCheckpointModel._load_model E c (Some TextEncoder2) s
    = from_pretrained E T5EncoderModel (pchild (path c) "text_encoder_2") None s.
Proof.
  intros H8 H Hpath.
  unfold T5Encoder8bCheckpointModel._load_model, T5EncoderCheckpointModel._load_model.
  rewrite H8, H, Hpath. cbn [negb].
  repeat split; try reflexivity.
  intros [[]|] Hne; done.
Qed.

Lemma t5_loaders_agree_on_tokenizer_witness :
  T5Encoder8bCheckpointModel._load_model Scenario.world Scenario.t5_8b_config
    (Some Tokenizer2) Scenario.s0
  = (Ok (Pretrained T5Tokenizer (mkPath true ["models"; "t5"; "tokenizer_2"]) (Some 512)),
     mkState 30 false
       [mkStamp (EvFromPretrained T5Tokenizer (mkPath true ["models"; "t5"; "tokenizer_2"]))
          30 false]).
Proof.
  pose proof (t5_loaders_agree_on_tokenizer Scenario.world Scenario.t5_8b_config
                Scenario.t5_config Scenario.s0 eq_refl eq_refl eq_refl) as [H _].
  rewrite H. reflexivity.
Defined.

(** ** The architecture document (C9) *)

(** C9.  On the checkpoint path of the three loaders that read the
    architecture document, a document without a top-level [params] key makes
    the load fail; by then the document has been opened and parsed and
    nothing else has happened: no skeleton was built and no weight file was
    read.  The failure is the [KeyError] of the lookup whenever the run gets
    as far as the lookup. *)
Theorem missing_params_fails_early (E : Externals) (l : LoaderClass)
    (config : AnyModelConfig) (submodel_type : option SubModelType) (s : State)
    (text : string) (doc : Items) :
  reads_metadata l = true →
  isinstance config (guard_class l) = true →
  file_text E (metadata_file E config) = Some text →
  yaml_safe_load E text = Some (YMap doc) →
  dict_get "params" doc = None →
  ∃ e,
    load_model l E config submodel_type s
      = (Raise e,
         mkState (verbosity s) (meta_mode s)
           (trace s ++ [mkStamp (EvOpen (metadata_file E config)) (verbosity s) (meta_mode s);
                        mkStamp EvYamlLoad (verbosity s) (meta_mode s)]))
    ∧ (reaches_params l config submodel_type = true → e = KeyError "params").
Proof.
  intros Hl Hguard Htext Hdoc Hparams.
  destruct l; try discriminate Hl;
    cbn [load_model guard_class reaches_params single_file expected_class] in *;
    [ unfold FluxVAELoader._load_model
    | unfold FluxCheckpointModel._load_model, FluxCheckpointModel._load_from_singlefile
    | unfold FluxBnbQuantizednf4bCheckpointModel._load_model,
        FluxBnbQuantizednf4bCheckpointModel._load_from_singlefile ];
    fold (metadata_file E config); rewrite Hguard; cbn [negb];
    unfold_monad; rewrite Htext, Hdoc; cbn [params_items]; rewrite ?Hparams;
    cbn [verbosity meta_mode trace]; rewrite <- ?app_assoc; cbn [app].
  - eexists. split; reflexivity.
  - destruct submodel_type as [[]|]; cbn [bool_decide]; rewrite ?andb_false_r;
      try (eexists; split; [reflexivity | intros HH; try discriminate HH;
             by rewrite andb_false_r in HH]).
    destruct (isinstance config MainCheckpointConfig); cbn [negb];
      rewrite ?Hparams; eexists; (split; [reflexivity | done]).
  - destruct submodel_type as [[]|]; cbn [bool_decide]; rewrite ?andb_false_r;
      try (eexists; split; [reflexivity | intros HH; try discriminate HH;
             by rewrite andb_false_r in HH]).
    destruct (isinstance config MainBnbQuantized4bCheckpointConfig); cbn [negb];
      rewrite ?Hparams; eexists; (split; [reflexivity | done]).
Qed.

Lemma missing_params_fails_early_witness :
  ∃ e,
    load_model cFluxCheckpointModel Scenario.world (Scenario.bare_config MainCheckpointConfig)
      (Some Transformer) Scenario.s0
      = (Raise e,
         mkState 30 false
           ([] ++ [mkStamp (EvOpen "/configs/bare.yaml") 30 false;
                   mkStamp EvYamlLoad 30 false]))
    ∧ (true = true → e = KeyError "params").
Proof.
  apply (missing_params_fails_early Scenario.world cFluxCheckpointModel
           (Scenario.bare_config MainCheckpointConfig) (Some Transformer) Scenario.s0
           "bare" [("model", YMap [])]); reflexivity.
Defined.

(** ** Filtering the architecture document (C4, C7) *)

Lemma filter_params_spec (names : gset string) (items : Items) (kv : string * YamlValue) :
  kv ∈ filter_params names items ↔ kv ∈ items ∧ kv.1 ∈ names.
Proof. unfold filter_params. rewrite list_elem_of_filter. tauto. Qed.

Lemma filter_params_idem (names : gset string) (items : Items) :
  filter_params names (filter_params names items) = filter_params names items.
Proof. unfold filter_params. by apply list_filter_filter_l. Qed.

Lemma filter_params_keys_nodup (names : gset string) (items : Items) :
  NoDup (items.*1) → NoDup ((filter_params names items).*1).
Proof.
  unfold filter_params. induction items as [|[k v] items IH]; [done |].
  rewrite fmap_cons, NoDup_cons. intros [Hk Hnd].
  rewrite filter_cons. case_decide; [| by apply IH].
  rewrite fmap_cons, NoDup_cons. split; [| by apply IH].
  intros Hin. apply Hk. cbn in *.
  apply list_elem_of_fmap in Hin as ([k' v'] & -> & Hin).
  apply list_elem_of_filter in Hin as [_ Hin].
  apply list_elem_of_fmap. by exists (k', v').
Qed.

Lemma dict_get_Some (items : Items) (k : string) (v : YamlValue) :
  NoDup (items.*1) → dict_get k items = Some v ↔ (k, v) ∈ items.
Proof.
  induction items as [|[k' v'] items IH]; cbn [dict_get].
  - intros _. split; [done | by intros ?%elem_of_nil].
  - rewrite fmap_cons, NoDup_cons. intros [Hk Hnd]. cbn in Hk.
    rewrite elem_of_cons. case_bool_decide as Heq.
    + subst k'. split.
      * intros [= ->]. by left.
      * intros [[= ->] | Hin]; [done |].
        destruct Hk. apply list_elem_of_fmap. by exists (k, v).
    + rewrite (IH Hnd). split; [by right |].
      intros [[= -> ->] | Hin]; done.
Qed.

Lemma dict_get_Permutation (items items' : Items) (k : string) :
  NoDup (items.*1) → items ≡ₚ items' → dict_get k items = dict_get k items'.
Proof.
  intros Hnd Hperm.
  assert (NoDup (items'.*1)) as Hnd' by by rewrite <- Hperm.
  apply option_eq. intros v.
  rewrite !dict_get_Some by done. by rewrite Hperm.
Qed.

Lemma init_fields_ext (fs : list Field) (kwargs kwargs' : Items) :
  (∀ k, dict_get k kwargs = dict_get k kwargs') →
  init_fields fs kwargs = init_fields fs kwargs'.
Proof.
  intros Hext. induction fs as [|f fs IH]; [done |].
  cbn [init_fields]. by rewrite Hext, IH.
Qed.

Lemma dataclass_init_Permutation (fs : list Field) (kwargs kwargs' : Items) :
  NoDup (kwargs.*1) → kwargs ≡ₚ kwargs' →
  dataclass_init fs kwargs = dataclass_init fs kwargs'.
Proof.
  intros Hnd Hperm. unfold dataclass_init.
  rewrite (init_fields_ext fs kwargs kwargs')
    by (intros k; by apply dict_get_Permutation).
  erewrite bool_decide_ext; [done |]. by rewrite Hperm.
Qed.

(** C7.  Filtering a filtered mapping changes nothing, and the order of the
    keys in the document does not matter: two documents with the same items
    in different orders are filtered to the same items (in the respective
    orders), to mappings that answer every lookup alike, and to the same
    constructor arguments. *)
Theorem filtering_idempotent_order_independent (fs : list Field) (items items' : Items) :
  NoDup (items.*1) →
  items ≡ₚ items' →
  let names := field_names fs in
  filter_params names (filter_params names items) = filter_params names items
  ∧ filter_params names items ≡ₚ filter_params names items'
  ∧ (∀ k, dict_get k (filter_params names items) = dict_get k (filter_params names items'))
  ∧ dataclass_init fs (filter_params names items)
    = dataclass_init fs (filter_params names items').
Proof.
  intros Hnd Hperm names.
  assert (filter_params names items ≡ₚ filter_params names items') as Hfperm
    by (unfold filter_params; by rewrite Hperm).
  pose proof (filter_params_keys_nodup names items Hnd) as Hfnd.
  split; [apply filter_params_idem |].
  split; [done |].
  split; [intros k; by apply dict_get_Permutation |].
  by apply dataclass_init_Permutation.
Qed.

Lemma filtering_idempotent_order_independent_witness :
  let names := field_names (AutoEncoderParams Scenario.world) in
  let items' := [("extra_unused_field", YInt 99); ("in_channels", YInt 3);
                 ("resolution", YInt 256)] in
  filter_params names (filter_params names Scenario.vae_params)
    = filter_params names Scenario.vae_params
  ∧ filter_params names Scenario.vae_params ≡ₚ filter_params names items'
  ∧ (∀ k, dict_get k (filter_params names Scenario.vae_params)
          = dict_get k (filter_params names items'))
  ∧ dataclass_init (AutoEncoderParams Scenario.world) (filter_params names Scenario.vae_params)
    = dataclass_init (AutoEncoderParams Scenario.world) (filter_params names items').
Proof.
  apply (filtering_idempotent_order_independent (AutoEncoderParams Scenario.world)
           Scenario.vae_params).
  - apply (bool_decide_unpack (NoDup _)). vm_compute. exact I.
  - unfold Scenario.vae_params.
    etrans; [apply Permutation_swap |]. etrans; [apply perm_skip, Permutation_swap |].
    apply Permutation_swap.
Defined.

(** ** Overlaying the weight file (C2, C4) *)





Lemma size_mismatch_false (sd st : gmap string Tensor) :
  size_mismatch sd st = false
  ↔ ∀ name old new, st !! name = Some old → sd !! name = Some new →
                    tensor_shape new = tensor_shape old.
Proof.
  unfold size_mismatch. rewrite negb_false_iff, forallb_forall. split.
  - intros H name old new Hold Hnew.
    assert (shape_ok sd (name, old).1 (name, old).2 = true) as Hok
      by by apply H, list_elem_of_In, elem_of_map_to_list.
    unfold shape_ok in Hok. cbn in Hok. rewrite Hnew in Hok.
    by apply bool_decide_eq_true in Hok.
  - intros H [name old] Hin%list_elem_of_In%elem_of_map_to_list.
    unfold shape_ok. cbn. destruct (sd !! name) as [new|] eqn:Hnew; [| done].
    apply bool_decide_eq_true. eauto.
Qed.

Lemma overlay_accepts_dec (E : Externals) (sd : gmap string Tensor) (model : Network) :
  overlay_accepts E sd model
  ↔ state_dict_hook_error E model sd = None
    ∧ size_mismatch sd (state_dict model) = false.
Proof. unfold overlay_accepts. by rewrite size_mismatch_false. Qed.

(** The overlay as the loaders call it: it returns the overlaid network when
    the file is accepted, and raises otherwise. *)
Lemma load_state_dict_accepted (E : Externals) (sd : gmap string Tensor)
    (model : Network) (s : State) :
  overlay_accepts E sd model →
  load_state_dict E false true sd model s
  = (Ok (overlaid sd model),
     mkState (verbosity s) (meta_mode s)
       (trace s ++ [mkStamp (EvLoadStateDict false true) (verbosity s) (meta_mode s)])).
Proof.
  intros [Hhook Hsize]%overlay_accepts_dec.
  unfold load_state_dict, bind, emit, ret. by rewrite Hhook, Hsize.
Qed.


(** C4.  The filter keeps exactly the items of the document whose key is a
    field name.  In the example scenario (parameters [resolution: 256],
    [in_channels: 3], [extra_unused_field: 99]; fields [resolution],
    [in_channels] and [out_channels], the last with a default; a weight file
    the overlay accepts) the filtered items are [resolution: 256] and
    [in_channels: 3], the skeleton is built with the default of
    [out_channels], and the object returned has [in_channels] equal to 3. *)
Theorem example_scenario_filtering (E : Externals) (config : AnyModelConfig)
    (submodel_type : option SubModelType) (s : State) (text : string) (doc : Items)
    (out_default : YamlValue) (ps sd : gmap string Tensor) :
  isinstance config VAECheckpointConfig = true →
  file_text E (metadata_file E config) = Some text →
  yaml_safe_load E text = Some (YMap doc) →
  dict_get "params" doc = Some (YMap Scenario.vae_params) →
  AutoEncoderParams E = [mkField "resolution" None; mkField "in_channels" None;
                         mkField "out_channels" (Some out_default)] →
  fresh_parameters E AutoEncoder
    [("resolution", YInt 256); ("in_channels", YInt 3); ("out_channels", out_default)]
    = Some ps →
  safetensors E (path config) = Some sd →
  overlay_accepts E sd
    (mkNetwork AutoEncoder
       [("resolution", YInt 256); ("in_channels", YInt 3); ("out_channels", out_default)]
       (materialize (meta_mode s) ps) false) →
  (∀ names items kv, kv ∈ filter_params names items ↔ kv ∈ items ∧ kv.1 ∈ names)
  ∧ filter_params (field_names (AutoEncoderParams E)) Scenario.vae_params
    = [("resolution", YInt 256); ("in_channels", YInt 3)]
  ∧ ∃ m s',
      FluxVAELoader._load_model E config submodel_type s = (Ok (Net m), s')
      ∧ hparams m = [("resolution", YInt 256); ("in_channels", YInt 3);
                     ("out_channels", out_default)]
      ∧ dict_get "in_channels" (hparams m) = Some (YInt 3).
Proof.
  intros Hcls Htext Hdoc Hparams Hfields Hfresh Hsd Haccept.
  split; [apply filter_params_spec |].
  assert (filter_params (field_names (AutoEncoderParams E)) Scenario.vae_params
          = [("resolution", YInt 256); ("in_channels", YInt 3)]) as Hfilter
    by (rewrite Hfields; by vm_compute).
  split; [done |].
  unfold FluxVAELoader._load_model. fold (metadata_file E config).
  rewrite Hcls.
  unfold read_flux_conf, construct, load_file, with_, bind, ret, raise, lift, emit,
    SilenceWarnings.
  cbn [cm_enter cm_exit verbosity meta_mode trace].
  rewrite Htext, Hdoc. cbn [params_items].
  rewrite Hparams, Hfilter, Hfields.
  replace (dataclass_init _ _)
    with (Ok [("resolution", YInt 256); ("in_channels", YInt 3);
              ("out_channels", out_default)]) by by vm_compute.
  cbn [verbosity meta_mode trace]. rewrite Hfresh, Hsd.
  rewrite load_state_dict_accepted by done.
  eexists _, _. split; [reflexivity |]. split; reflexivity.
Qed.

Lemma example_scenario_filtering_witness :
  filter_params (field_names (AutoEncoderParams Scenario.world)) Scenario.vae_params
    = [("resolution", YInt 256); ("in_channels", YInt 3)]
  ∧ ∃ m s',
      FluxVAELoader._load_model Scenario.world Scenario.vae_config None Scenario.s0
        = (Ok (Net m), s')
      ∧ hparams m = [("resolution", YInt 256); ("in_channels", YInt 3);
                     ("out_channels", YInt 3)]
      ∧ dict_get "in_channels" (hparams m) = Some (YInt 3).
Proof.
  apply (example_scenario_filtering Scenario.world Scenario.vae_config None Scenario.s0
           "vae" [("target", YStr "autoencoder"); ("params", YMap Scenario.vae_params)]
           (YInt 3) Scenario.skeleton Scenario.weights); try reflexivity.
  apply overlay_accepts_dec. split; by vm_compute.
Defined.




(** With [strict=True] the example's overlay would have been refused for its
    names alone. *)
Example strict_overlay_refused :
  ∃ s', load_state_dict Scenario.world true true Scenario.weights
          (mkNetwork Flux [] Scenario.skeleton false) Scenario.s0
        = (Raise (RuntimeError "Error(s) in loading state_dict"), s').
Proof. eexists. by vm_compute. Qed.

(** ** The quantized path (C3) *)

Lemma all_meta_empty : all_meta (mkNetwork Flux [] ∅ false).
Proof. intros name t. cbn. by rewrite lookup_empty. Qed.

Lemma all_meta_materialize (cls : NetClass) (params : Items) (ps : gmap string Tensor)
    (q : bool) :
  all_meta (mkNetwork cls params (materialize true ps) q).
Proof.
  intros name t. cbn. rewrite lookup_fmap.
  destruct (ps !! name); cbn; [by intros [= <-] | done].
Qed.

(** C3.  Whatever the world does, the outside calls of the quantized path
    are an initial part of: build the skeleton in "empty weights" mode,
    quantize that skeleton, read the weight file, overlay it.  A load that
    succeeds has made all four, in this order.  The skeleton handed to the
    quantization routine has no parameter with backing storage, and no
    constructor call is made outside "empty weights" mode. *)
Theorem quantized_path_order (E : Externals) (config : AnyModelConfig)
    (flux_conf : YamlValue) (s : State) :
  ∃ r evs skeleton,
    FluxBnbQuantizednf4bCheckpointModel._load_from_singlefile E config flux_conf s
      = (r, mkState (verbosity s) (meta_mode s) (trace s ++ evs))
    ∧ evs `prefix_of` quantized_load_order config s skeleton
    ∧ (∀ m, r = Ok m → evs = quantized_load_order config s skeleton)
    ∧ Forall (λ st, ∀ cls, event st = EvConstruct cls → at_meta st = true) evs
    ∧ all_meta skeleton.
Proof.
  unfold FluxBnbQuantizednf4bCheckpointModel._load_from_singlefile, quantized_load_order.
  unfold_monad; repeat (case_step; cbn [verbosity meta_mode trace andb negb]);
    rewrite <- ?app_assoc; cbn [app];
    first [ eexists _, [], _; split; [by rewrite app_nil_r, state_eta |]
          | eexists _, _, _; split; [reflexivity |] ];
    (split; [by eexists |]);
    (split; [try done |]);
    (split; [repeat (constructor; try (intros ? [=]; done)) |]);
    first [exact all_meta_empty | apply all_meta_materialize].
Qed.

(** The order is not an empty promise: here is a quantized load that runs
    to its end. *)
Example quantized_load_succeeds :
  ∃ m s',
    FluxBnbQuantizednf4bCheckpointModel._load_model Scenario.world Scenario.nf4_config
      (Some Transformer) Scenario.s0 = (Ok (Net m), s')
    ∧ quantized m = true
    ∧ event <$> drop 2 (trace s')
      = [EvConstruct Flux;
         EvQuantize (mkNetwork Flux [("in_channels", YInt 64); ("depth", YInt 19)]
                       (materialize true Scenario.skeleton) false);
         EvLoadFile (path Scenario.nf4_config);
         EvLoadStateDict false true].
Proof. eexists _, _. split; [by vm_compute |]. split; reflexivity. Qed.

(** ** Warnings (C6) *)

(** C6.  On the checkpoint paths the verbosity of library warnings is at
    [ERROR] for the construction of the skeleton, the quantization, the
    reading of the weight file and the overlay, and only for those: the
    document is opened and parsed at the caller's verbosity, and the
    caller's verbosity is back when the call ends, by a result or by an
    exception. *)
Theorem warnings_silenced_in_scope (E : Externals) (l : LoaderClass)
    (config : AnyModelConfig) (submodel_type : option SubModelType) (s : State) :
  reads_metadata l = true →
  (l = cFluxVAELoader → isinstance config VAECheckpointConfig = true) →
  ∃ r evs,
    load_model l E config submodel_type s
      = (r, mkState (verbosity s) (meta_mode s) (trace s ++ evs))
    ∧ Forall (λ st, at_verbosity st
                    = if in_load_scope (event st) then ERROR else verbosity s) evs
    ∧ (∀ m, r = Ok m →
         Exists (λ st, event st = EvYamlLoad) evs
         ∧ Exists (λ st, event st = EvConstruct (network_class l)) evs
         ∧ Exists (λ st, event st = EvLoadFile (path config)) evs
         ∧ Exists (λ st, event st = EvLoadStateDict false true) evs).
Proof.
  intros Hl Hvae.
  destruct l; try discriminate Hl; cbn [load_model network_class];
    [ unfold FluxVAELoader._load_model; rewrite (Hvae eq_refl)
    | unfold FluxCheckpointModel._load_model, FluxCheckpointModel._load_from_singlefile
    | unfold FluxBnbQuantizednf4bCheckpointModel._load_model,
        FluxBnbQuantizednf4bCheckpointModel._load_from_singlefile ];
    clear Hl Hvae;
    unfold_monad; repeat (case_step; cbn [verbosity meta_mode trace andb negb]);
    rewrite <- ?app_assoc; cbn [app];
    first [ eexists _, []; split; [by rewrite app_nil_r, state_eta |]
          | eexists _, _; split; [reflexivity |] ];
    (split; [by repeat constructor |]);
    first [ by intros ? [=]
          | intros _ _; repeat split;
            repeat first [ by apply Exists_cons_hd | apply Exists_cons_tl ] ].
Qed.

Lemma warnings_silenced_in_scope_witness :
  ∃ r evs,
    load_model cFluxVAELoader Scenario.world Scenario.vae_config None Scenario.s0
      = (r, mkState 30 false ([] ++ evs))
    ∧ Forall (λ st, at_verbosity st = if in_load_scope (event st) then ERROR else 30) evs
    ∧ (∀ m, r = Ok m →
         Exists (λ st, event st = EvYamlLoad) evs
         ∧ Exists (λ st, event st = EvConstruct AutoEncoder) evs
         ∧ Exists (λ st, event st = EvLoadFile (path Scenario.vae_config)) evs
         ∧ Exists (λ st, event st = EvLoadStateDict false true) evs).
Proof.
  apply (warnings_silenced_in_scope Scenario.world cFluxVAELoader Scenario.vae_config None
           Scenario.s0); reflexivity.
Defined.

(** * Further properties of the loaders *)

(** ** From the document to the constructor arguments *)

Lemma dict_get_filter (names : gset string) (items : Items) (k : string) :
  dict_get k (filter_params names items)
  = if decide (k ∈ names) then dict_get k items else None.
Proof.
  unfold filter_params. induction items as [|[k' v] items IH].
  - by case_decide.
  - rewrite filter_cons. cbn [fst]. destruct (decide (k' ∈ names)) as [Hk'|Hk'].
    + cbn [dict_get]. case_bool_decide as Heq; [| done].
      subst k'. by rewrite decide_True.
    + rewrite IH. cbn [dict_get]. case_bool_decide as Heq; [| done].
      subst k'. by case_decide.
Qed.

(** X1.  The filtered mapping answers a lookup as the document does when the
    key is a field name and has no entry for any other key, whatever else
    the document holds; in particular no key outside the field names is
    left in it. *)
Theorem filtered_lookup (names : gset string) (items : Items) (k : string) :
  dict_get k (filter_params names items)
  = (if decide (k ∈ names) then dict_get k items else None)
  ∧ (k ∈ (filter_params names items).*1 → k ∈ names ∧ k ∈ items.*1).
Proof.
  split; [apply dict_get_filter |].
  intros ([k' v] & -> & [Hin Hk]%filter_params_spec)%list_elem_of_fmap.
  split; [done |]. apply list_elem_of_fmap. by exists (k', v).
Qed.

Lemma filter_params_known_keys (fs : list Field) (items : Items) :
  Forall (λ kv, kv.1 ∈ field_names fs) (filter_params (field_names fs) items).
Proof.
  apply Forall_forall. intros kv Hkv. by apply filter_params_spec in Hkv as [_ ?].
Qed.

Lemma init_fields_mapM (fs : list Field) (kwargs : Items) :
  init_fields fs kwargs = mapM (field_value kwargs) fs.
Proof.
  induction fs as [|f fs IH]; [done |].
  cbn [init_fields mapM]. rewrite IH.
  destruct (dict_get (field_name f) kwargs) as [v|] eqn:Hget.
  - replace (field_value kwargs f) with (Some (field_name f, v))
      by (unfold field_value; by rewrite Hget).
    cbn. by destruct (mapM _ fs).
  - destruct (field_default f) as [v|] eqn:Hdef.
    + replace (field_value kwargs f) with (Some (field_name f, v))
        by (unfold field_value; by rewrite Hget, Hdef).
      cbn. by destruct (mapM _ fs).
    + replace (field_value kwargs f) with (@None (string * YamlValue))
        by (unfold field_value; by rewrite Hget, Hdef).
      done.
Qed.

Lemma field_value_filter (fs : list Field) (items : Items) (f : Field) :
  f ∈ fs →
  field_value (filter_params (field_names fs) items) f = field_value items f.
Proof.
  intros Hf. unfold field_value. rewrite dict_get_filter.
  rewrite decide_True; [done |].
  unfold field_names. apply elem_of_list_to_set, list_elem_of_fmap. by exists f.
Qed.

Lemma dataclass_init_filter_mapM (fs : list Field) (items : Items) :
  dataclass_init fs (filter_params (field_names fs) items)
  = match mapM (field_value items) fs with
    | Some inst => Ok inst
    | None => Raise (TypeError "missing required argument")
    end.
Proof.
  unfold dataclass_init.
  rewrite (bool_decide_eq_true_2 _ (filter_params_known_keys fs items)).
  rewrite init_fields_mapM.
  by rewrite (Forall_mapM_ext _ (field_value items) fs)
    by (apply Forall_forall; intros f Hf; by apply field_value_filter).
Qed.

Lemma field_value_Some (items : Items) (f : Field) (kv : string * YamlValue) :
  field_value items f = Some kv →
  kv.1 = field_name f
  ∧ kv.2 = default (default YNull (field_default f)) (dict_get (field_name f) items)
  ∧ (is_Some (dict_get (field_name f) items) ∨ is_Some (field_default f)).
Proof.
  unfold field_value. destruct (dict_get (field_name f) items) as [w|].
  - intros [= <-]. cbn. eauto.
  - destruct (field_default f) as [w|]; [| done]. intros [= <-]. cbn. eauto.
Qed.

Lemma dataclass_init_Ok (fs : list Field) (items inst : Items) :
  dataclass_init fs (filter_params (field_names fs) items) = Ok inst →
  Forall2 (λ f kv, field_value items f = Some kv) fs inst.
Proof.
  rewrite dataclass_init_filter_mapM.
  destruct (mapM _ fs) as [inst'|] eqn:Hm; [| done]. intros [= ->].
  by apply mapM_Some.
Qed.

Lemma dataclass_instance_shape (fs : list Field) (items inst : Items) :
  dataclass_init fs (filter_params (field_names fs) items) = Ok inst →
  inst.*1 = field_name <$> fs
  ∧ Forall2 (λ f kv, kv.1 = field_name f
                     ∧ kv.2 = default (default YNull (field_default f))
                                (dict_get (field_name f) items)) fs inst.
Proof.
  intros H%dataclass_init_Ok.
  induction H as [|f kv fs inst (Hk & Hv & _)%field_value_Some _ [IH1 IH2]].
  - by repeat constructor.
  - split; [by rewrite !fmap_cons, Hk, IH1 |]. by constructor.
Qed.

Lemma dataclass_init_missing_field (fs : list Field) (items : Items) (f : Field) :
  f ∈ fs → dict_get (field_name f) items = None → field_default f = None →
  dataclass_init fs (filter_params (field_names fs) items)
  = Raise (TypeError "missing required argument").
Proof.
  intros Hf Hget Hdef. rewrite dataclass_init_filter_mapM.
  rewrite (mapM_None_2 (field_value items) fs); [done |].
  apply Exists_exists. exists f. split; [done |].
  unfold field_value. by rewrite Hget, Hdef.
Qed.

(** X2.  Filtering and then calling the dataclass constructor comes to this:
    every field, in declaration order, takes the value the document gives
    under its name, else its default; the call fails, with the
    missing-argument [TypeError], exactly when some field has neither.  Keys
    of the document that are not fields play no part, and the
    unexpected-keyword error cannot occur. *)
Theorem dataclass_init_after_filter (fs : list Field) (items : Items) :
  dataclass_init fs (filter_params (field_names fs) items)
  = (match mapM (field_value items) fs with
     | Some inst => Ok inst
     | None => Raise (TypeError "missing required argument")
     end)
  ∧ (mapM (field_value items) fs = None
     ↔ ∃ f, f ∈ fs ∧ dict_get (field_name f) items = None ∧ field_default f = None).
Proof.
  split; [apply dataclass_init_filter_mapM |].
  rewrite mapM_None, Exists_exists. unfold field_value.
  split; intros (f & Hf & H); exists f; (split; [done |]).
  - destruct (dict_get (field_name f) items); [done |].
    by destruct (field_default f).
  - destruct H as [-> ->]. done.
Qed.

(** X3.  When the constructor succeeds, the instance has the declared
    fields, each once and in declaration order; each holds the document's
    value for its name or, when the document has none, the field's default;
    and every field had one of the two. *)
Theorem dataclass_instance_fields (fs : list Field) (items inst : Items) :
  dataclass_init fs (filter_params (field_names fs) items) = Ok inst →
  inst.*1 = field_name <$> fs
  ∧ Forall2 (λ f kv, kv.1 = field_name f
                     ∧ kv.2 = default (default YNull (field_default f))
                                (dict_get (field_name f) items)) fs inst
  ∧ Forall (λ f, is_Some (dict_get (field_name f) items) ∨ is_Some (field_default f)) fs.
Proof.
  intros Hinit.
  destruct (dataclass_instance_shape fs items inst Hinit) as [Hnames Hvalues].
  split; [done |]. split; [done |].
  apply dataclass_init_Ok in Hinit. clear Hnames Hvalues.
  induction Hinit as [|f kv fs inst Hf _ IH]; constructor; [| done].
  by apply field_value_Some in Hf as (_ & _ & ?).
Qed.

Lemma dataclass_instance_fields_witness :
  let fs := AutoEncoderParams Scenario.world in
  let inst := [("resolution", YInt 256); ("in_channels", YInt 3); ("out_channels", YInt 3)] in
  inst.*1 = field_name <$> fs
  ∧ Forall2 (λ f kv, kv.1 = field_name f
                     ∧ kv.2 = default (default YNull (field_default f))
                                (dict_get (field_name f) Scenario.vae_params)) fs inst
  ∧ Forall (λ f, is_Some (dict_get (field_name f) Scenario.vae_params)
                 ∨ is_Some (field_default f)) fs.
Proof.
  apply (dataclass_instance_fields (AutoEncoderParams Scenario.world) Scenario.vae_params).
  by vm_compute.
Defined.

(** ** What a checkpoint load returns *)

Lemma reaches_params_single_file (l : LoaderClass) (config : AnyModelConfig)
    (submodel_type : option SubModelType) :
  single_file l = true →
  reaches_params l config submodel_type = true →
  isinstance config (expected_class l) = true ∧ submodel_type = Some Transformer.
Proof.
  intros Hl. unfold reaches_params. rewrite Hl.
  intros [? ?%bool_decide_eq_true]%andb_true_iff. done.
Qed.

Lemma checkpoint_load_sound (E : Externals) (l : LoaderClass)
    (config : AnyModelConfig) (submodel_type : option SubModelType) (s : State)
    (model : AnyModel) :
  reads_metadata l = true →
  (l = cFluxVAELoader → isinstance config VAECheckpointConfig = true) →
  (load_model l E config submodel_type s).1 = Ok model →
  reaches_params l config submodel_type = true
  ∧ ∃ params skeleton sd,
      resolves_to E l config params
      ∧ skeleton_for E l s params = Some skeleton
      ∧ safetensors E (path config) = Some sd
      ∧ overlay_accepts E sd skeleton
      ∧ model = Net (overlaid sd skeleton).
Proof.
  intros Hl Hvae.
  destruct l; try discriminate Hl;
      cbn [load_model reaches_params single_file expected_class guard_class];
      [ unfold FluxVAELoader._load_model; rewrite (Hvae eq_refl)
      | unfold FluxCheckpointModel._load_model, FluxCheckpointModel._load_from_singlefile
      | unfold FluxBnbQuantizednf4bCheckpointModel._load_model,
          FluxBnbQuantizednf4bCheckpointModel._load_from_singlefile ];
      clear Hl Hvae; fold (metadata_file E config);
      unfold_monad; repeat (case_step; cbn [verbosity meta_mode trace andb negb fst]);
      intros [= <-];
      repeat match goal with
             | H : negb _ = false |- _ => apply negb_false_iff in H
             end;
      (split; [by rewrite ?andb_true_iff |]);
      match goal with
      | Hf : fresh_parameters E _ ?p = Some _,
        Hq : quantize_nf4 E _ _ _ = Some ?n,
        Hsd : safetensors E _ = Some ?sd |- _ =>
          exists p, n, sd
      | Hf : fresh_parameters E ?c ?p = Some ?ps,
        Hsd : safetensors E _ = Some ?sd |- _ =>
          exists p, (mkNetwork c p (materialize (meta_mode s) ps) false), sd
      end;
      (split; [eexists _, _, _; cbn [params_fields]; eauto |]);
      (split; [| split; [done | split; [by apply overlay_accepts_dec | done]]]);
      unfold skeleton_for; cbn [network_class];
      match goal with
      | H : fresh_parameters _ _ _ = _ |- _ => by rewrite H
      end.
Qed.




(** The quantized layers of the second world insist on their weight [A],
    which the example's weight file lacks: the same load stops in the
    overlay. *)
Example quantized_layer_misses_its_weight :
  (load_model cFluxBnbQuantizednf4bCheckpointModel Edge.world Scenario.nf4_config
     (Some Transformer) Scenario.s0).1 = Raise (KeyError "A").
Proof. by vm_compute. Qed.

(** X5.  The network a plain checkpoint load returns is of the loader's
    network class, unquantized, and was built with exactly the declared
    hyperparameters, in declaration order, each holding what the [params]
    of the document give for it or, failing that, the field's default. *)
Theorem plain_load_hyperparameters (E : Externals) (l : LoaderClass)
    (config : AnyModelConfig) (submodel_type : option SubModelType) (s : State)
    (model : AnyModel) :
  l = cFluxVAELoader ∨ l = cFluxCheckpointModel →
  (l = cFluxVAELoader → isinstance config VAECheckpointConfig = true) →
  (load_model l E config submodel_type s).1 = Ok model →
  ∃ m text flux_conf items,
    model = Net m
    ∧ net_class m = network_class l
    ∧ quantized m = false
    ∧ file_text E (metadata_file E config) = Some text
    ∧ yaml_safe_load E text = Some flux_conf
    ∧ params_items flux_conf = Ok items
    ∧ (hparams m).*1 = field_name <$> params_fields E l
    ∧ Forall2 (λ f kv, kv.1 = field_name f
                       ∧ kv.2 = default (default YNull (field_default f))
                                  (dict_get (field_name f) items))
        (params_fields E l) (hparams m).
Proof.
  intros Hl Hvae Hrun.
  apply checkpoint_load_sound in Hrun
    as (_ & params & skeleton & sd
        & (text & flux_conf & items & Htext & Hyaml & Hitems & Hinit)
        & Hsk & _ & _ & ->);
    [| by destruct Hl as [-> | ->] | done].
  apply dataclass_instance_shape in Hinit as (Hnames & Hvalues).
  unfold skeleton_for in Hsk.
  destruct (fresh_parameters E (network_class l) params) as [ps|]; [| done].
  exists (overlaid sd skeleton), text, flux_conf, items.
  destruct Hl as [-> | ->]; injection Hsk as <-; cbn; done.
Qed.

Lemma plain_load_hyperparameters_witness :
  ∃ m text flux_conf items,
    Net (overlaid Scenario.weights
           (mkNetwork AutoEncoder
              [("resolution", YInt 256); ("in_channels", YInt 3); ("out_channels", YInt 3)]
              Scenario.skeleton false)) = Net m
    ∧ net_class m = AutoEncoder
    ∧ quantized m = false
    ∧ file_text Scenario.world "/configs/vae.yaml" = Some text
    ∧ yaml_safe_load Scenario.world text = Some flux_conf
    ∧ params_items flux_conf = Ok items
    ∧ (hparams m).*1 = field_name <$> AutoEncoderParams Scenario.world
    ∧ Forall2 (λ f kv, kv.1 = field_name f
                       ∧ kv.2 = default (default YNull (field_default f))
                                  (dict_get (field_name f) items))
        (AutoEncoderParams Scenario.world) (hparams m).
Proof.
  apply (plain_load_hyperparameters Scenario.world cFluxVAELoader Scenario.vae_config None
           Scenario.s0).
  - by left.
  - reflexivity.
  - by vm_compute.
Defined.

(** ** The overlay *)


(** ** The order of the outside calls *)

(** X7.  Whatever the world does, the outside calls of a checkpoint loader
    are an initial part of: open the document, parse it, build the skeleton
    (quantize it, on the quantized path), read the weight file, overlay it.
    A load that returns a model has made all of them, in this order; in
    particular the weight file is read at most once, and never before the
    document is parsed and the skeleton built. *)
Theorem checkpoint_call_order (E : Externals) (l : LoaderClass)
    (config : AnyModelConfig) (submodel_type : option SubModelType) (s : State) :
  reads_metadata l = true →
  (l = cFluxVAELoader → isinstance config VAECheckpointConfig = true) →
  ∃ r evs skeleton,
    load_model l E config submodel_type s
      = (r, mkState (verbosity s) (meta_mode s) (trace s ++ evs))
    ∧ evs `prefix_of` checkpoint_load_order E l config s skeleton
    ∧ (∀ m, r = Ok m → evs = checkpoint_load_order E l config s skeleton).
Proof.
  intros Hl Hvae.
  destruct l; try discriminate Hl;
    cbn [load_model checkpoint_load_order network_class]; unfold quantized_load_order;
    [ unfold FluxVAELoader._load_model; rewrite (Hvae eq_refl)
    | unfold FluxCheckpointModel._load_model, FluxCheckpointModel._load_from_singlefile
    | unfold FluxBnbQuantizednf4bCheckpointModel._load_model,
        FluxBnbQuantizednf4bCheckpointModel._load_from_singlefile ];
    clear Hl Hvae; fold (metadata_file E config);
    unfold_monad; repeat (case_step; cbn [verbosity meta_mode trace andb negb]);
    rewrite <- ?app_assoc; cbn [app];
    first [ eexists _, [], _; split; [by rewrite app_nil_r, state_eta |]
          | eexists _, _, _; split; [reflexivity |] ];
    (split; [by eexists |]);
    first [ by intros ? [=] | done ].
  Unshelve. all: exact (mkNetwork Flux [] ∅ false).
Qed.

Lemma checkpoint_call_order_witness :
  ∃ r evs skeleton,
    load_model cFluxCheckpointModel Scenario.world Scenario.flux_config (Some Transformer)
      Scenario.s0
      = (r, mkState 30 false ([] ++ evs))
    ∧ evs `prefix_of` checkpoint_load_order Scenario.world cFluxCheckpointModel
                        Scenario.flux_config Scenario.s0 skeleton
    ∧ (∀ m, r = Ok m →
         evs = checkpoint_load_order Scenario.world cFluxCheckpointModel
                 Scenario.flux_config Scenario.s0 skeleton).
Proof.
  apply (checkpoint_call_order Scenario.world cFluxCheckpointModel Scenario.flux_config
           (Some Transformer) Scenario.s0); [reflexivity | discriminate].
Defined.

(** ** Errors of the architecture document *)

(** X8.  On the checkpoint paths a document that cannot be opened stops the
    load with whatever [open] raised for the file name that was tried (not
    found, a directory, not readable), unchanged, after that one call; one
    that cannot be parsed stops it with the parser's error, after [open]
    and [yaml.safe_load].  This holds for every sub-part: the two main
    loaders read the document before they look at the sub-part, so these
    errors win over the sub-part error. *)
Theorem document_errors_come_first (E : Externals) (l : LoaderClass)
    (config : AnyModelConfig) (submodel_type : option SubModelType) (s : State) :
  reads_metadata l = true →
  isinstance config (guard_class l) = true →
  match file_text E (metadata_file E config) with
  | None =>
      load_model l E config submodel_type s
      = (Raise (open_error E (metadata_file E config)),
         mkState (verbosity s) (meta_mode s)
           (trace s ++ [mkStamp (EvOpen (metadata_file E config))
                          (verbosity s) (meta_mode s)]))
  | Some text =>
      yaml_safe_load E text = None →
      load_model l E config submodel_type s
      = (Raise YAMLError,
         mkState (verbosity s) (meta_mode s)
           (trace s ++ [mkStamp (EvOpen (metadata_file E config))
                          (verbosity s) (meta_mode s);
                        mkStamp EvYamlLoad (verbosity s) (meta_mode s)]))
  end.
Proof.
  intros Hl Hguard.
  destruct l; try discriminate Hl; cbn [load_model guard_class] in *;
    [ unfold FluxVAELoader._load_model
    | unfold FluxCheckpointModel._load_model
    | unfold FluxBnbQuantizednf4bCheckpointModel._load_model ];
    fold (metadata_file E config); rewrite Hguard; cbn [negb]; unfold_calls;
    (destruct (file_text E (metadata_file E config)) as [text|]; [intros Hyaml |]);
    rewrite ?Hyaml; cbn [verbosity meta_mode trace]; rewrite <- ?app_assoc; done.
Qed.

Lemma document_errors_come_first_witness :
  load_model cFluxCheckpointModel Edge.world
    (mkConfig MainCheckpointConfig (mkPath false ["flux.safetensors"]) (mkPath false []))
    (Some VAE) Scenario.s0
  = (Raise (IsADirectoryError "/configs"),
     mkState 30 false ([] ++ [mkStamp (EvOpen "/configs") 30 false]))
  ∧ load_model cFluxBnbQuantizednf4bCheckpointModel Edge.world
      (Edge.config_with MainBnbQuantized4bCheckpointConfig "nowhere.yaml")
      (Some Transformer) Scenario.s0
    = (Raise (FileNotFoundError "/configs/nowhere.yaml"),
       mkState 30 false ([] ++ [mkStamp (EvOpen "/configs/nowhere.yaml") 30 false]))
  ∧ load_model cFluxVAELoader Edge.world
      (Edge.config_with VAECheckpointConfig "broken.yaml") None Scenario.s0
    = (Raise YAMLError,
       mkState 30 false ([] ++ [mkStamp (EvOpen "/configs/broken.yaml") 30 false;
                                mkStamp EvYamlLoad 30 false])).
Proof.
  split; [| split].
  - exact (document_errors_come_first Edge.world cFluxCheckpointModel
             (mkConfig MainCheckpointConfig (mkPath false ["flux.safetensors"])
                (mkPath false []))
             (Some VAE) Scenario.s0 eq_refl eq_refl).
  - exact (document_errors_come_first Edge.world cFluxBnbQuantizednf4bCheckpointModel
             (Edge.config_with MainBnbQuantized4bCheckpointConfig "nowhere.yaml")
             (Some Transformer) Scenario.s0 eq_refl eq_refl).
  - exact (document_errors_come_first Edge.world cFluxVAELoader
             (Edge.config_with VAECheckpointConfig "broken.yaml") None
             Scenario.s0 eq_refl eq_refl eq_refl).
Defined.

Lemma resolve_params_errors (E : Externals) (l : LoaderClass) (flux_conf : YamlValue)
    (e : PyError) :
  resolve_params E l flux_conf = Raise e →
  e = TypeError "not subscriptable" ∨ e = KeyError "params"
  ∨ e = AttributeError "items" ∨ e = TypeError "missing required argument".
Proof.
  unfold resolve_params, params_items.
  destruct flux_conf as [| | | | | |d]; try (intros [= <-]; by left).
  destruct (dict_get "params" d) as [[| | | | | |items]|];
    try (intros [= <-]; by eauto).
  rewrite dataclass_init_filter_mapM.
  destruct (mapM _ _); [done |]. intros [= <-]. eauto.
Qed.

(** X9.  When the document is read but does not give the constructor
    arguments, the load stops with the error of that step, unchanged, and
    nothing but [open] and [yaml.safe_load] has been called: no skeleton, no
    weight file.  The error is one of four: the document is not a mapping
    (an empty file parses to [None]), it has no [params], its [params] is
    not a mapping, or a field without default is missing from it. *)
Theorem document_without_arguments (E : Externals) (l : LoaderClass)
    (config : AnyModelConfig) (submodel_type : option SubModelType) (s : State)
    (text : string) (flux_conf : YamlValue) (e : PyError) :
  reads_metadata l = true →
  isinstance config (guard_class l) = true →
  reaches_params l config submodel_type = true →
  file_text E (metadata_file E config) = Some text →
  yaml_safe_load E text = Some flux_conf →
  resolve_params E l flux_conf = Raise e →
  load_model l E config submodel_type s
  = (Raise e,
     mkState (verbosity s) (meta_mode s)
       (trace s ++ [mkStamp (EvOpen (metadata_file E config)) (verbosity s) (meta_mode s);
                    mkStamp EvYamlLoad (verbosity s) (meta_mode s)]))
  ∧ (e = TypeError "not subscriptable" ∨ e = KeyError "params"
     ∨ e = AttributeError "items" ∨ e = TypeError "missing required argument").
Proof.
  intros Hl Hguard Hreach Htext Hyaml Hres.
  split; [| by eapply resolve_params_errors].
  unfold resolve_params in Hres.
  destruct l; try discriminate Hl; cbn [load_model guard_class params_fields] in *.
  - unfold FluxVAELoader._load_model. fold (metadata_file E config).
    rewrite Hguard. unfold_monad. rewrite Htext, Hyaml.
    cbn [verbosity meta_mode trace].
    destruct (params_items flux_conf) as [items|];
      [rewrite Hres | injection Hres as ->]; by rewrite <- app_assoc.
  - destruct (reaches_params_single_file cFluxCheckpointModel _ _ eq_refl Hreach)
      as [Hcls ->].
    unfold FluxCheckpointModel._load_model, FluxCheckpointModel._load_from_singlefile.
    fold (metadata_file E config). cbn [expected_class] in Hcls.
    rewrite Hguard, Hcls. cbn [negb]. unfold_monad. rewrite Htext, Hyaml.
    cbn [verbosity meta_mode trace].
    destruct (params_items flux_conf) as [items|];
      [rewrite Hres | injection Hres as ->]; by rewrite <- app_assoc.
  - destruct (reaches_params_single_file cFluxBnbQuantizednf4bCheckpointModel _ _
                eq_refl Hreach) as [Hcls ->].
    unfold FluxBnbQuantizednf4bCheckpointModel._load_model,
      FluxBnbQuantizednf4bCheckpointModel._load_from_singlefile.
    fold (metadata_file E config). cbn [expected_class] in Hcls.
    rewrite Hguard, Hcls. cbn [negb]. unfold_monad. rewrite Htext, Hyaml.
    cbn [verbosity meta_mode trace].
    destruct (params_items flux_conf) as [items|];
      [rewrite Hres | injection Hres as ->]; by rewrite <- app_assoc.
Qed.

Lemma document_without_arguments_witness :
  (load_model cFluxVAELoader Edge.world
     (Edge.config_with VAECheckpointConfig "empty.yaml") None Scenario.s0
   = (Raise (TypeError "not subscriptable"),
      mkState 30 false ([] ++ [mkStamp (EvOpen "/configs/empty.yaml") 30 false;
                               mkStamp EvYamlLoad 30 false])))
  ∧ (load_model cFluxBnbQuantizednf4bCheckpointModel Edge.world
       (Edge.config_with MainBnbQuantized4bCheckpointConfig "thin.yaml") (Some Transformer)
       Scenario.s0
     = (Raise (TypeError "missing required argument"),
        mkState 30 false ([] ++ [mkStamp (EvOpen "/configs/thin.yaml") 30 false;
                                 mkStamp EvYamlLoad 30 false]))).
Proof.
  split.
  - apply (document_without_arguments Edge.world cFluxVAELoader
             (Edge.config_with VAECheckpointConfig "empty.yaml") None Scenario.s0
             "" YNull); reflexivity.
  - apply (document_without_arguments Edge.world cFluxBnbQuantizednf4bCheckpointModel
             (Edge.config_with MainBnbQuantized4bCheckpointConfig "thin.yaml")
             (Some Transformer) Scenario.s0 "thin" Edge.thin_yaml);
      first [reflexivity | by vm_compute].
Defined.

(** ** The directory loaders *)

(** X10.  The CLIP and the two T5 loaders touch nothing but the model
    directory.  A call either stops at one of the two guards, with an
    [Exception] and no outside call at all, or makes exactly one
    [from_pretrained] call, at the caller's verbosity, on the configured
    path or a sub-directory of it, and returns what that call gives or
    passes on its error.  They never open the architecture document, never
    silence warnings, and never return a network of this module's making. *)
Theorem directory_loaders_frame (E : Externals) (l : LoaderClass)
    (config : AnyModelConfig) (submodel_type : option SubModelType) (s : State) :
  reads_metadata l = false →
  (∃ msg, load_model l E config submodel_type s = (Raise (Exception msg), s)
          ∧ (isinstance config (guard_class l) = false
             ∨ supported l submodel_type = false))
  ∨ (∃ r cls src max_length,
       load_model l E config submodel_type s
       = (r, mkState (verbosity s) (meta_mode s)
               (trace s ++ [mkStamp (EvFromPretrained cls src)
                              (verbosity s) (meta_mode s)]))
       ∧ (r = Ok (Pretrained cls src max_length) ∨ r = Raise (OSError "from_pretrained"))
       ∧ anchored src = anchored (path config)
       ∧ parts (path config) `prefix_of` parts src
       ∧ isinstance config (guard_class l) = true
       ∧ supported l submodel_type = true).
Proof.
  intros Hl.
  destruct l; try discriminate Hl; cbn [load_model guard_class supported];
    [ unfold ClipCheckpointModel._load_model
    | unfold T5Encoder8bCheckpointModel._load_model
    | unfold T5EncoderCheckpointModel._load_model ];
    (destruct (isinstance config _); cbn [negb]; [| left; eexists; split; eauto]);
    destruct submodel_type as [[]|];
    try (left; eexists; split; [reflexivity | by right]);
    right; unfold pchild, pdiv; cbn [anchored parts]; unfold_monad;
    destruct (pretrained_available E _ _);
    eexists _, _, _, _; (split; [reflexivity |]);
    (split; [eauto |]); (split; [done |]);
    (split; [first [done | by eexists] |]); done.
  Unshelve. all: exact None.
Qed.

Lemma directory_loaders_frame_witness :
  (∃ msg, load_model cClipCheckpointModel Edge.world Scenario.clip_config
            (Some TextEncoder) Scenario.s0 = (Raise (Exception msg), Scenario.s0)
          ∧ (isinstance Scenario.clip_config CLIPEmbedDiffusersConfig = false
             ∨ supported cClipCheckpointModel (Some TextEncoder) = false))
  ∨ (∃ r cls src max_length,
       load_model cClipCheckpointModel Edge.world Scenario.clip_config
         (Some TextEncoder) Scenario.s0
       = (r, mkState 30 false ([] ++ [mkStamp (EvFromPretrained cls src) 30 false]))
       ∧ (r = Ok (Pretrained cls src max_length) ∨ r = Raise (OSError "from_pretrained"))
       ∧ anchored src = anchored (path Scenario.clip_config)
       ∧ parts (path Scenario.clip_config) `prefix_of` parts src
       ∧ isinstance Scenario.clip_config CLIPEmbedDiffusersConfig = true
       ∧ supported cClipCheckpointModel (Some TextEncoder) = true).
Proof.
  apply (directory_loaders_frame Edge.world cClipCheckpointModel Scenario.clip_config
           (Some TextEncoder) Scenario.s0).
  reflexivity.
Defined.

(** ** The two main loaders, and the registrations *)

(** X11.  Up to the hand-over to [_load_from_singlefile] the plain and the
    quantized main loader are the same: for every sub-part other than
    [Transformer], and for every record that is not a
    [CheckpointConfigBase], they do the same thing in every world. *)
Theorem main_loaders_differ_only_in_singlefile (E : Externals) (config : AnyModelConfig)
    (submodel_type : option SubModelType) (s : State) :
  submodel_type ≠ Some Transformer ∨ isinstance config CheckpointConfigBase = false →
  FluxCheckpointModel._load_model E config submodel_type s
  = FluxBnbQuantizednf4bCheckpointModel._load_model E config submodel_type s.
Proof.
  intros H.
  unfold FluxCheckpointModel._load_model, FluxBnbQuantizednf4bCheckpointModel._load_model.
  destruct (isinstance config CheckpointConfigBase); cbn [negb]; [| done].
  destruct H as [H | H]; [| done].
  unfold bind. destruct (read_flux_conf E _ s) as [[flux_conf|e] s']; [| done].
  by destruct submodel_type as [[]|].
Qed.

Lemma main_loaders_differ_only_in_singlefile_witness :
  FluxCheckpointModel._load_model Scenario.world Scenario.flux_config (Some VAE) Scenario.s0
  = FluxBnbQuantizednf4bCheckpointModel._load_model Scenario.world Scenario.flux_config
      (Some VAE) Scenario.s0.
Proof.
  apply (main_loaders_differ_only_in_singlefile Scenario.world Scenario.flux_config
           (Some VAE) Scenario.s0).
  by left.
Defined.

(** X12.  No two classes are registered under the same (base, type, format)
    triple, and the triple tells the kind of loader: the classes registered
    for the Flux base are the three that read the architecture document,
    the classes registered for any base are the three directory loaders. *)
Theorem registrations_distinct (l1 l2 : LoaderClass) :
  (registration l1 = registration l2 ↔ l1 = l2)
  ∧ (reads_metadata l1 = true ↔ (registration l1).1.1 = BaseModelType.Flux)
  ∧ (reads_metadata l1 = false ↔ (registration l1).1.1 = BaseModelType.Any).
Proof.
  split; [split; [destruct l1, l2; done | by intros ->] |].
  destruct l1; cbn; repeat split; done.
Qed.
